(** * Drone: gamepad input to motor pulses, servo position and controller slots

    Shallow embedding of
    [ControlNotebook/Individual_Note_Books/Edwin/4MotorBluetoothANDServo.c]
    (and of the two connection handlers it shares with
    [Resources/XboxBluetooth/TestCode.c]).

    The sketch targets the ESP32, where [int] and [long] are both 32-bit
    two's-complement words.  A C integer is a [Z] inside
    [[-2^31, 2^31)]; every arithmetic operation is followed by [wrap32],
    which is the identity on results that fit. *)

From Stdlib Require Import ZArith Lia List Ascii.
From Stdlib Require String Strings.Byte.
From stdpp Require Import base decidable numbers list.

Local Open Scope Z_scope.

(** ** 32-bit machine integers *)

Module Int32.

Definition INT_MIN : Z := -2147483648.
Definition INT_MAX : Z := 2147483647.

(** Reduction of a mathematical integer to the 32-bit signed word with
    the same low 32 bits. *)
Definition wrap32 (z : Z) : Z := (z + 2147483648) mod 4294967296 - 2147483648.

Definition in_range (z : Z) : Prop := INT_MIN <= z <= INT_MAX.

Definition add (a b : Z) : Z := wrap32 (a + b).
Definition sub (a b : Z) : Z := wrap32 (a - b).
Definition mul (a b : Z) : Z := wrap32 (a * b).
Definition neg (a : Z) : Z := wrap32 (- a).
(** C's [/] truncates toward zero. *)
Definition div (a b : Z) : Z := wrap32 (Z.quot a b).

End Int32.

(** ** The Arduino core helpers used by the sketch *)

Module Arduino.
Import Int32.

(** Modelled from the spec: the Arduino macro [abs] is not part of the
    sources.  The spec writes [abs(axisValue)], the magnitude of the axis
    value; the core defines it as [((x)>0?(x):-(x))], on a 32-bit [int]. *)
Definition abs (x : Z) : Z := if 0 <? x then x else neg x.

(** Modelled from the spec: the Arduino macro [constrain] is not part of
    the sources.  The spec calls it the clamp of a result to
    [[MIN, MAX]]; the core defines it as
    [((amt)<(low)?(low):((amt)>(high)?(high):(amt)))]. *)
Definition constrain (amt low high : Z) : Z :=
  if amt <? low then low else if high <? amt then high else amt.

(** Modelled from the spec: the Arduino function [map] is not part of the
    sources.  The spec calls it the linear interpolation of the input
    domain onto the output range; the ESP32 core computes it on [long]
    as [run = in_max - in_min], [rise = out_max - out_min],
    [delta = x - in_min], result [-1] when [run == 0] and
    [(delta * rise) / run + out_min] otherwise. *)
Definition map (x in_min in_max out_min out_max : Z) : Z :=
  let run := sub in_max in_min in
  if run =? 0 then -1
  else
    let rise := sub out_max out_min in
    let delta := sub x in_min in
    add (div (mul delta rise) run) out_min.

End Arduino.

(** ** Pulse mapper *)

Definition MIN_PULSE : Z := 1020.
Definition MID_PULSE : Z := 1492.
Definition MAX_PULSE : Z := 2000.

Definition SERVO_UP : Z := 170.
Definition SERVO_DOWN : Z := 10.

Definition mapJoystickToPulseBidirectional (joyVal : Z) : Z :=
  if Arduino.abs joyVal <? 40 then MID_PULSE
  else
    let pulse := Arduino.map joyVal (-512) 512 MIN_PULSE MAX_PULSE in
    Arduino.constrain pulse MIN_PULSE MAX_PULSE.

(** The axis values for which the product [(joyVal + 512) * 980] of the
    interpolation fits a 32-bit [long]. *)
Definition AXIS_LO : Z := -2191821.
Definition AXIS_HI : Z := 2190797.

Definition product_fits (v : Z) : Prop := AXIS_LO <= v <= AXIS_HI.

(** Closed form of the interpolation in unbounded integers, used to state
    what [Arduino.map] computes when no intermediate result wraps
    ([map_fits] below). *)
Definition interpolate (v : Z) : Z := Z.quot ((v + 512) * 980) 1024 + 1020.

(** ** The Bluepad32 collaborator *)

(** The Bluepad32 header is not part of the sources: the capacity of the
    controller table and the two button masks the sketch tests are
    parameters of the development. *)
Class Bluepad32 := {
  BP32_MAX_GAMEPADS : nat;
  BUTTON_A : Z;
  BUTTON_Y : Z
}.

(** The values the library's header gives them; used to evaluate the
    sketch at concrete inputs. *)
Definition bluepad32_esp32 : Bluepad32 :=
  {| BP32_MAX_GAMEPADS := 4; BUTTON_A := 1; BUTTON_Y := 8 |}.

(** A [ControllerPtr] is an address; [nullptr] is address 0. *)
Definition ControllerPtr : Type := N.
Definition nullptr : ControllerPtr := 0%N.

(** What the accessors of a controller object return during one update. *)
Record Controller := {
  isConnected : bool;
  axisY : Z;
  axisRY : Z;
  buttons : Z
}.

(** ** Program state *)

(** Lines written to [Serial]. *)
Inductive SerialLine :=
| Banner
| PairingPrompt
| ControllerConnectedAt (i : nat) (ctl : ControllerPtr)
| ControllerDisconnectedAt (i : nat)
| ServoUpLine
| ServoDownLine
| DriveLine (leftY leftPulse rightY rightPulse : Z).

(** The globals of the sketch: the controller table, the last pulse written
    to each motor, the last position written to the arm servo, and the
    serial output so far (oldest line first). *)
Record Sketch := {
  controllers : list ControllerPtr;
  motor1 : Z;
  motor2 : Z;
  motor3 : Z;
  motor4 : Z;
  armServo : Z;
  serial : list SerialLine
}.

Definition set_controller (i : nat) (ctl : ControllerPtr) (s : Sketch) : Sketch :=
  {| controllers := <[i:=ctl]> (controllers s);
     motor1 := motor1 s; motor2 := motor2 s; motor3 := motor3 s; motor4 := motor4 s;
     armServo := armServo s; serial := serial s |}.

Definition motor1_writeMicroseconds (p : Z) (s : Sketch) : Sketch :=
  {| controllers := controllers s;
     motor1 := p; motor2 := motor2 s; motor3 := motor3 s; motor4 := motor4 s;
     armServo := armServo s; serial := serial s |}.

Definition motor2_writeMicroseconds (p : Z) (s : Sketch) : Sketch :=
  {| controllers := controllers s;
     motor1 := motor1 s; motor2 := p; motor3 := motor3 s; motor4 := motor4 s;
     armServo := armServo s; serial := serial s |}.

Definition motor3_writeMicroseconds (p : Z) (s : Sketch) : Sketch :=
  {| controllers := controllers s;
     motor1 := motor1 s; motor2 := motor2 s; motor3 := p; motor4 := motor4 s;
     armServo := armServo s; serial := serial s |}.

Definition motor4_writeMicroseconds (p : Z) (s : Sketch) : Sketch :=
  {| controllers := controllers s;
     motor1 := motor1 s; motor2 := motor2 s; motor3 := motor3 s; motor4 := p;
     armServo := armServo s; serial := serial s |}.

Definition armServo_write (a : Z) (s : Sketch) : Sketch :=
  {| controllers := controllers s;
     motor1 := motor1 s; motor2 := motor2 s; motor3 := motor3 s; motor4 := motor4 s;
     armServo := a; serial := serial s |}.

Definition Serial_print (l : SerialLine) (s : Sketch) : Sketch :=
  {| controllers := controllers s;
     motor1 := motor1 s; motor2 := motor2 s; motor3 := motor3 s; motor4 := motor4 s;
     armServo := armServo s; serial := serial s ++ [l] |}.

(** Conversion of the button mask to [uint16_t]. *)
Definition to_uint16 (z : Z) : Z := z mod 65536.

(** Number of live (non-null) entries of a controller table. *)
Definition occupied (l : list ControllerPtr) : nat :=
  length (filter (fun p => p <> nullptr) l).

(** No device sits in two distinct live slots. *)
Definition no_shared_device (l : list ControllerPtr) : Prop :=
  forall (i j : nat) (p : ControllerPtr),
    l !! i = Some p -> l !! j = Some p -> p <> nullptr -> i = j.

(** Connection events as the input collaborator delivers them, each
    handler running to completion before the next one starts. *)
Inductive Event :=
| Connect (ctl : ControllerPtr)
| Disconnect (ctl : ControllerPtr).

Section Sketch.
Context `{Bluepad32}.

(** The globals before [setup()] runs: the table as its initialiser
    [{nullptr}] leaves it, nothing written to [Serial]; 0 stands for a
    motor or servo that has not been written yet. *)
Definition power_on : Sketch :=
  {| controllers := replicate BP32_MAX_GAMEPADS nullptr;
     motor1 := 0; motor2 := 0; motor3 := 0; motor4 := 0;
     armServo := 0;
     serial := [] |}.

(** [setup()]: motors to neutral, arm down.  Attaching the pins and
    registering the two handlers with [BP32] change none of the globals. *)
Definition setup (s : Sketch) : Sketch :=
  let s := Serial_print Banner s in
  let s := motor1_writeMicroseconds MID_PULSE s in
  let s := motor2_writeMicroseconds MID_PULSE s in
  let s := motor3_writeMicroseconds MID_PULSE s in
  let s := motor4_writeMicroseconds MID_PULSE s in
  let s := armServo_write SERVO_DOWN s in
  Serial_print PairingPrompt s.

(** The state in which the first [loop()] iteration starts. *)
Definition boot : Sketch := setup power_on.

(** The [for] loop of [onConnectedController], entered at index [i] with
    [n] iterations left.  The table has [BP32_MAX_GAMEPADS] entries, so
    the lookup inside the loop bound always succeeds. *)
Fixpoint connect_scan (n i : nat) (ctl : ControllerPtr) (s : Sketch) : Sketch :=
  match n with
  | O => s
  | S n' =>
      match controllers s !! i with
      | Some p =>
          if decide (p = nullptr)
          then Serial_print (ControllerConnectedAt i ctl) (set_controller i ctl s)
          else connect_scan n' (S i) ctl s
      | None => s
      end
  end.

Definition onConnectedController (ctl : ControllerPtr) (s : Sketch) : Sketch :=
  connect_scan BP32_MAX_GAMEPADS 0 ctl s.

(** The [for] loop of [onDisconnectedController]. *)
Fixpoint disconnect_scan (n i : nat) (ctl : ControllerPtr) (s : Sketch) : Sketch :=
  match n with
  | O => s
  | S n' =>
      match controllers s !! i with
      | Some p =>
          if decide (p = ctl)
          then set_controller i nullptr (Serial_print (ControllerDisconnectedAt i) s)
          else disconnect_scan n' (S i) ctl s
      | None => s
      end
  end.

Definition onDisconnectedController (ctl : ControllerPtr) (s : Sketch) : Sketch :=
  disconnect_scan BP32_MAX_GAMEPADS 0 ctl s.

Definition updateMotorsFromController (ctl : Controller) (s : Sketch) : Sketch :=
  if negb (isConnected ctl) then s
  else
    let leftY := axisY ctl in
    let rightY := axisRY ctl in
    let leftPulse := mapJoystickToPulseBidirectional (Int32.neg leftY) in
    let rightPulse := mapJoystickToPulseBidirectional (Int32.neg rightY) in
    let s := motor1_writeMicroseconds leftPulse s in
    let s := motor2_writeMicroseconds leftPulse s in
    let s := motor3_writeMicroseconds rightPulse s in
    let s := motor4_writeMicroseconds rightPulse s in
    let buttons := to_uint16 (buttons ctl) in
    let s := if Z.land buttons BUTTON_Y =? 0 then s
             else Serial_print ServoUpLine (armServo_write SERVO_UP s) in
    let s := if Z.land buttons BUTTON_A =? 0 then s
             else Serial_print ServoDownLine (armServo_write SERVO_DOWN s) in
    Serial_print (DriveLine leftY leftPulse rightY rightPulse) s.

Definition handle (e : Event) (s : Sketch) : Sketch :=
  match e with
  | Connect ctl => onConnectedController ctl s
  | Disconnect ctl => onDisconnectedController ctl s
  end.

Definition handle_all (es : list Event) (s : Sketch) : Sketch :=
  foldl (fun s e => handle e s) s es.

(** A connect event is fresh when its device holds no slot at the moment
    the event is delivered. *)
Definition holds (ctl : ControllerPtr) (s : Sketch) : bool :=
  bool_decide (ctl <> nullptr /\ ctl ∈ controllers s).

Fixpoint connects_fresh (es : list Event) (s : Sketch) : bool :=
  match es with
  | [] => true
  | e :: es' =>
      match e with
      | Connect ctl => negb (holds ctl s)
      | Disconnect _ => true
      end && connects_fresh es' (handle e s)
  end.

End Sketch.

(** ** The main loop *)

(** What reaches the sketch from outside: a connection callback, or one
    pass of [loop()] with the answer of [BP32.update()] and the controller
    objects as they stand during that pass. *)
Inductive Input :=
| Callback (e : Event)
| Tick (updated : bool) (deref : ControllerPtr -> Controller).

(** The connection events among the inputs, in order. *)
Definition callbacks (inps : list Input) : list Event :=
  omap (fun inp => match inp with Callback e => Some e | Tick _ _ => None end) inps.

Section Loop.
Context `{Bluepad32}.

(** The [for] loop of [loop()], entered at index [i] with [n] iterations
    left.  [ctl && ctl->isConnected()] reads the object only behind a
    non-null pointer. *)
Fixpoint loop_scan (n i : nat) (deref : ControllerPtr -> Controller)
    (s : Sketch) : Sketch :=
  match n with
  | O => s
  | S n' =>
      match controllers s !! i with
      | Some ctl =>
          let s' :=
            if decide (ctl = nullptr) then s
            else if isConnected (deref ctl)
                 then updateMotorsFromController (deref ctl) s
                 else s in
          loop_scan n' (S i) deref s'
      | None => s
      end
  end.

(** [loop()]; the closing [delay(50)] changes none of the globals. *)
Definition loop (updated : bool) (deref : ControllerPtr -> Controller)
    (s : Sketch) : Sketch :=
  if updated then loop_scan BP32_MAX_GAMEPADS 0 deref s else s.

Definition react (inp : Input) (s : Sketch) : Sketch :=
  match inp with
  | Callback e => handle e s
  | Tick updated deref => loop updated deref s
  end.

Definition run (inps : list Input) (s : Sketch) : Sketch :=
  foldl (fun s inp => react inp s) s inps.

(** The actuators hold commands the hardware accepts: every motor pulse
    within [[MIN_PULSE, MAX_PULSE]], the two motors of a side equal, the
    arm at one of its two positions; and the table has its declared
    size. *)
Definition safe (s : Sketch) : Prop :=
  (MIN_PULSE <= motor1 s <= MAX_PULSE)%Z /\
  (MIN_PULSE <= motor3 s <= MAX_PULSE)%Z /\
  motor2 s = motor1 s /\
  motor4 s = motor3 s /\
  (armServo s = SERVO_UP \/ armServo s = SERVO_DOWN) /\
  length (controllers s) = BP32_MAX_GAMEPADS.

End Loop.

(** ** The Bluepad32 test sketch, [Resources/XboxBluetooth/TestCode.c] *)

Module TestCode.
Import String.

(** What the accessors of a controller object return while it is dumped. *)
Record Gamepad := {
  isConnected : bool;
  hasData : bool;
  index : Z;
  dpad : Z;
  buttons : Z;
  axisX : Z;
  axisY : Z;
  axisRX : Z;
  axisRY : Z;
  throttle : Z;
  brake : Z
}.

(** Lines written to [Serial].  The three lines of [setup()] carry their
    characters; the others carry the values their format prints. *)
Inductive SerialLine :=
| Text (chars : list ascii)
| ConnectedAt (i : nat)
| ModelLine (ctl : ControllerPtr)
| DisconnectedFrom (i : nat)
| DumpLine (idx dpad buttons axisLX axisLY axisRX axisRY throttle brake : Z).

Record Sketch := {
  controllers : list ControllerPtr;
  serial : list SerialLine
}.

Definition set_controller (i : nat) (ctl : ControllerPtr) (s : Sketch) : Sketch :=
  {| controllers := <[i:=ctl]> (controllers s); serial := serial s |}.

Definition Serial_print (l : SerialLine) (s : Sketch) : Sketch :=
  {| controllers := controllers s; serial := serial s ++ [l] |}.

(** One uppercase hexadecimal digit. *)
Definition hex_digit (n : N) : ascii :=
  match n with
  | 0 => "0" | 1 => "1" | 2 => "2" | 3 => "3"
  | 4 => "4" | 5 => "5" | 6 => "6" | 7 => "7"
  | 8 => "8" | 9 => "9" | 10 => "A" | 11 => "B"
  | 12 => "C" | 13 => "D" | 14 => "E" | _ => "F"
  end%N%char.

(** [%02X] applied to a [uint8_t]: two uppercase hexadecimal digits. *)
Definition fmt_02X (b : Byte.byte) : list ascii :=
  [hex_digit (Byte.to_N b / 16); hex_digit (Byte.to_N b mod 16)].

(** [snprintf(buf, size, ...)] keeps at most [size - 1] characters of the
    formatted text and terminates them. *)
Definition snprintf (size : nat) (formatted : list ascii) : list ascii :=
  take (size - 1)%nat formatted.

(** The text of ["BD Addr: %02X:%02X:%02X:%02X:%02X:%02X"] for the six
    bytes [addr[0]] to [addr[5]]. *)
Definition bd_addr_text (addr : list Byte.byte) : list ascii :=
  let byte_at i := fmt_02X (nth i addr Byte.x00) in
  let colon := [":"%char] in
  list_ascii_of_string "BD Addr: "%string ++
  byte_at 0%nat ++ colon ++ byte_at 1%nat ++ colon ++ byte_at 2%nat ++ colon ++
  byte_at 3%nat ++ colon ++ byte_at 4%nat ++ colon ++ byte_at 5%nat.

(** [setup()], given what [BP32.firmwareVersion()] and
    [BP32.localBdAddress()] return; [buf] has 20 characters.  The closing
    calls into [BP32] change none of the globals. *)
Definition setup (firmware : list ascii) (addr : list Byte.byte)
    (s : Sketch) : Sketch :=
  let s := Serial_print
             (Text (list_ascii_of_string
                      "Starting Bluepad32 test for Xbox controller"%string)) s in
  let s := Serial_print
             (Text (list_ascii_of_string "Firmware version: "%string ++ firmware)) s in
  let buf := snprintf 20%nat (bd_addr_text addr) in
  Serial_print (Text buf) s.

(** The line [dumpGamepad] prints for a controller object. *)
Definition dump_line (ctl : Gamepad) : SerialLine :=
  DumpLine (index ctl) (dpad ctl) (buttons ctl)
    (axisX ctl) (axisY ctl) (axisRX ctl) (axisRY ctl)
    (throttle ctl) (brake ctl).

Definition dumpGamepad (ctl : Gamepad) (s : Sketch) : Sketch :=
  Serial_print (dump_line ctl) s.

(** [ctl && ctl->isConnected() && ctl->hasData()]. *)
Definition ready (deref : ControllerPtr -> Gamepad) (ctl : ControllerPtr) : bool :=
  if decide (ctl = nullptr) then false
  else isConnected (deref ctl) && hasData (deref ctl).

Section Handlers.
Context `{Bluepad32}.

Fixpoint connect_scan (n i : nat) (ctl : ControllerPtr) (s : Sketch) : Sketch :=
  match n with
  | O => s
  | S n' =>
      match controllers s !! i with
      | Some p =>
          if decide (p = nullptr)
          then Serial_print (ModelLine ctl)
                 (Serial_print (ConnectedAt i) (set_controller i ctl s))
          else connect_scan n' (S i) ctl s
      | None => s
      end
  end.

Definition onConnectedController (ctl : ControllerPtr) (s : Sketch) : Sketch :=
  connect_scan BP32_MAX_GAMEPADS 0 ctl s.

Fixpoint disconnect_scan (n i : nat) (ctl : ControllerPtr) (s : Sketch) : Sketch :=
  match n with
  | O => s
  | S n' =>
      match controllers s !! i with
      | Some p =>
          if decide (p = ctl)
          then set_controller i nullptr (Serial_print (DisconnectedFrom i) s)
          else disconnect_scan n' (S i) ctl s
      | None => s
      end
  end.

Definition onDisconnectedController (ctl : ControllerPtr) (s : Sketch) : Sketch :=
  disconnect_scan BP32_MAX_GAMEPADS 0 ctl s.

Definition handle (e : Event) (s : Sketch) : Sketch :=
  match e with
  | Connect ctl => onConnectedController ctl s
  | Disconnect ctl => onDisconnectedController ctl s
  end.

Definition handle_all (es : list Event) (s : Sketch) : Sketch :=
  foldl (fun s e => handle e s) s es.

(** The [for] loop of [processControllers]. *)
Fixpoint process_scan (n i : nat) (deref : ControllerPtr -> Gamepad)
    (s : Sketch) : Sketch :=
  match n with
  | O => s
  | S n' =>
      match controllers s !! i with
      | Some ctl =>
          let s' := if ready deref ctl then dumpGamepad (deref ctl) s else s in
          process_scan n' (S i) deref s'
      | None => s
      end
  end.

Definition processControllers (deref : ControllerPtr -> Gamepad)
    (s : Sketch) : Sketch :=
  process_scan BP32_MAX_GAMEPADS 0 deref s.

(** [loop()]; the closing [delay(150)] changes none of the globals. *)
Definition loop (updated : bool) (deref : ControllerPtr -> Gamepad)
    (s : Sketch) : Sketch :=
  if updated then processControllers deref s else s.

End Handlers.

End TestCode.

(** * Properties *)

(** ** Machine arithmetic *)

Lemma wrap32_range z : Int32.in_range (Int32.wrap32 z).
Proof.
  unfold Int32.in_range, Int32.wrap32, Int32.INT_MIN, Int32.INT_MAX.
  pose proof (Z.mod_pos_bound (z + 2147483648) 4294967296). lia.
Qed.

Lemma wrap32_id z : Int32.in_range z -> Int32.wrap32 z = z.
Proof.
  unfold Int32.in_range, Int32.wrap32, Int32.INT_MIN, Int32.INT_MAX. intros Hz.
  rewrite Z.mod_small by lia. lia.
Qed.

Lemma wrap32_fits z : -2147483648 <= z <= 2147483647 -> Int32.wrap32 z = z.
Proof. intros Hz. apply wrap32_id. exact Hz. Qed.

Lemma abs_fits v :
  -2147483647 <= v <= 2147483647 -> Arduino.abs v = Z.abs v.
Proof.
  intros Hv. unfold Arduino.abs, Int32.neg.
  destruct (Z.ltb_spec 0 v); [lia|].
  rewrite wrap32_fits by lia. lia.
Qed.

Lemma constrain_range amt low high :
  low <= high -> low <= Arduino.constrain amt low high <= high.
Proof.
  intros Hlh. unfold Arduino.constrain.
  destruct (Z.ltb_spec amt low); [lia|].
  destruct (Z.ltb_spec high amt); lia.
Qed.

Lemma constrain_mono a b low high :
  low <= high -> a <= b ->
  Arduino.constrain a low high <= Arduino.constrain b low high.
Proof.
  intros Hlh Hab. unfold Arduino.constrain.
  destruct (Z.ltb_spec a low), (Z.ltb_spec b low); try lia;
    destruct (Z.ltb_spec high a), (Z.ltb_spec high b); lia.
Qed.

(** ** The interpolation, where nothing overflows *)

Lemma interpolate_mono v1 v2 : v1 <= v2 -> interpolate v1 <= interpolate v2.
Proof.
  intros Hv. unfold interpolate.
  assert (Z.quot ((v1 + 512) * 980) 1024 <= Z.quot ((v2 + 512) * 980) 1024); [|lia].
  apply Z.quot_le_mono; lia.
Qed.

Lemma interpolate_bounds v :
  product_fits v -> -2097151 <= Z.quot ((v + 512) * 980) 1024 <= 2097151.
Proof.
  unfold product_fits, AXIS_LO, AXIS_HI. intros Hv. split.
  - change (-2097151) with (Z.quot (-2147482820) 1024).
    apply Z.quot_le_mono; lia.
  - change 2097151 with (Z.quot 2147482820 1024).
    apply Z.quot_le_mono; lia.
Qed.

Lemma map_fits v :
  product_fits v -> Arduino.map v (-512) 512 MIN_PULSE MAX_PULSE = interpolate v.
Proof.
  intros Hv. pose proof (interpolate_bounds v Hv) as Hq.
  unfold product_fits, AXIS_LO, AXIS_HI in Hv.
  unfold Arduino.map, interpolate, MIN_PULSE, MAX_PULSE.
  change (Int32.sub 512 (-512)) with 1024.
  change (Int32.sub 2000 1020) with 980.
  change (1024 =? 0) with false. cbv iota.
  unfold Int32.sub, Int32.mul, Int32.div, Int32.add.
  replace (v - -512) with (v + 512) by lia.
  rewrite (wrap32_fits (v + 512)) by lia.
  rewrite (wrap32_fits ((v + 512) * 980)) by lia.
  rewrite (wrap32_fits (Z.quot _ _)) by lia.
  rewrite wrap32_fits by lia. reflexivity.
Qed.

Lemma pulse_outside_deadzone v :
  product_fits v -> 40 <= Z.abs v ->
  mapJoystickToPulseBidirectional v =
    Arduino.constrain (interpolate v) MIN_PULSE MAX_PULSE.
Proof.
  intros Hv Hd. unfold mapJoystickToPulseBidirectional.
  rewrite abs_fits by (unfold product_fits, AXIS_LO, AXIS_HI in Hv; lia).
  destruct (Z.ltb_spec (Z.abs v) 40); [lia|].
  cbv zeta. rewrite map_fits by exact Hv. reflexivity.
Qed.

Lemma pulse_inside_deadzone v :
  Z.abs v < 40 -> mapJoystickToPulseBidirectional v = MID_PULSE.
Proof.
  intros Hd. unfold mapJoystickToPulseBidirectional.
  rewrite abs_fits by lia.
  destruct (Z.ltb_spec (Z.abs v) 40); [reflexivity|lia].
Qed.

Lemma pulse_bounds v :
  MIN_PULSE <= mapJoystickToPulseBidirectional v <= MAX_PULSE.
Proof.
  unfold mapJoystickToPulseBidirectional.
  destruct (Arduino.abs v <? 40).
  - unfold MIN_PULSE, MID_PULSE, MAX_PULSE. lia.
  - cbv zeta. apply constrain_range. unfold MIN_PULSE, MAX_PULSE. lia.
Qed.

Lemma pulse_at_least_40 v :
  product_fits v -> 40 <= v -> 1548 <= mapJoystickToPulseBidirectional v.
Proof.
  intros Hv Hd. rewrite pulse_outside_deadzone by (try exact Hv; lia).
  pose proof (interpolate_mono 40 v Hd) as Hm.
  change (interpolate 40) with 1548 in Hm.
  pose proof (constrain_mono 1548 (interpolate v) MIN_PULSE MAX_PULSE) as Hc.
  change (Arduino.constrain 1548 MIN_PULSE MAX_PULSE) with 1548 in Hc.
  apply Hc; [unfold MIN_PULSE, MAX_PULSE; lia | exact Hm].
Qed.

Lemma pulse_at_most_minus_40 v :
  product_fits v -> v <= -40 -> mapJoystickToPulseBidirectional v <= 1471.
Proof.
  intros Hv Hd. rewrite pulse_outside_deadzone by (try exact Hv; lia).
  pose proof (interpolate_mono v (-40) Hd) as Hm.
  change (interpolate (-40)) with 1471 in Hm.
  pose proof (constrain_mono (interpolate v) 1471 MIN_PULSE MAX_PULSE) as Hc.
  change (Arduino.constrain 1471 MIN_PULSE MAX_PULSE) with 1471 in Hc.
  apply Hc; [unfold MIN_PULSE, MAX_PULSE; lia | exact Hm].
Qed.

(** The mapper is non-decreasing over every pair of inputs whose
    interpolation product fits 32 bits, the deadzone included. *)
Lemma pulse_mono v1 v2 :
  product_fits v1 -> product_fits v2 -> v1 <= v2 ->
  mapJoystickToPulseBidirectional v1 <= mapJoystickToPulseBidirectional v2.
Proof.
  intros H1 H2 Hv.
  destruct (Z.lt_ge_cases (Z.abs v1) 40) as [D1|D1];
    destruct (Z.lt_ge_cases (Z.abs v2) 40) as [D2|D2].
  - rewrite !pulse_inside_deadzone by assumption. lia.
  - rewrite (pulse_inside_deadzone v1) by assumption.
    pose proof (pulse_at_least_40 v2 H2). unfold MID_PULSE. lia.
  - rewrite (pulse_inside_deadzone v2) by assumption.
    pose proof (pulse_at_most_minus_40 v1 H1). unfold MID_PULSE. lia.
  - rewrite !pulse_outside_deadzone by assumption.
    apply constrain_mono; [unfold MIN_PULSE, MAX_PULSE; lia|].
    apply interpolate_mono, Hv.
Qed.

Lemma pulse_above_min_iff v :
  product_fits v -> 40 <= Z.abs v ->
  (MIN_PULSE < mapJoystickToPulseBidirectional v <-> -510 <= v).
Proof.
  intros Hv Hd. rewrite pulse_outside_deadzone by assumption.
  pose proof (constrain_mono 1021 (interpolate v) MIN_PULSE MAX_PULSE) as Hup.
  pose proof (constrain_mono (interpolate v) 1020 MIN_PULSE MAX_PULSE) as Hdn.
  change (Arduino.constrain 1021 MIN_PULSE MAX_PULSE) with 1021 in Hup.
  change (Arduino.constrain 1020 MIN_PULSE MAX_PULSE) with 1020 in Hdn.
  unfold MIN_PULSE, MAX_PULSE in *. split.
  - intros Hlt. destruct (Z.lt_ge_cases v (-510)) as [Hc|Hc]; [|exact Hc].
    pose proof (interpolate_mono v (-511) ltac:(lia)) as Hm.
    change (interpolate (-511)) with 1020 in Hm. lia.
  - intros Hge. pose proof (interpolate_mono (-510) v Hge) as Hm.
    change (interpolate (-510)) with 1021 in Hm. lia.
Qed.

Lemma pulse_below_max_iff v :
  product_fits v -> 40 <= Z.abs v ->
  (mapJoystickToPulseBidirectional v < MAX_PULSE <-> v <= 511).
Proof.
  intros Hv Hd. rewrite pulse_outside_deadzone by assumption.
  pose proof (constrain_mono 2000 (interpolate v) MIN_PULSE MAX_PULSE) as Hup.
  pose proof (constrain_mono (interpolate v) 1999 MIN_PULSE MAX_PULSE) as Hdn.
  change (Arduino.constrain 2000 MIN_PULSE MAX_PULSE) with 2000 in Hup.
  change (Arduino.constrain 1999 MIN_PULSE MAX_PULSE) with 1999 in Hdn.
  unfold MIN_PULSE, MAX_PULSE in *. split.
  - intros Hlt. destruct (Z.lt_ge_cases 511 v) as [Hc|Hc]; [|exact Hc].
    pose proof (interpolate_mono 512 v ltac:(lia)) as Hm.
    change (interpolate 512) with 2000 in Hm. lia.
  - intros Hle. pose proof (interpolate_mono v 511 Hle) as Hm.
    change (interpolate 511) with 1999 in Hm. lia.
Qed.

(** The range [[AXIS_LO, AXIS_HI]] is the largest one: one step outside
    it the product wraps and the pulse lands on the opposite bound. *)
Lemma product_range_tight :
  mapJoystickToPulseBidirectional AXIS_LO = MIN_PULSE /\
  mapJoystickToPulseBidirectional (AXIS_LO - 1) = MAX_PULSE /\
  mapJoystickToPulseBidirectional AXIS_HI = MAX_PULSE /\
  mapJoystickToPulseBidirectional (AXIS_HI + 1) = MIN_PULSE.
Proof. repeat split; reflexivity. Qed.

(** ** Pulse mapper: the claims *)

(** C1: for every integer axis value, inside or outside the nominal
    domain [[-512, 512]], the pulse returned by
    [mapJoystickToPulseBidirectional] lies in the closed interval
    [[MIN_PULSE, MAX_PULSE]] = [[1020, 2000]]. *)
Theorem pulse_in_closed_range (v : Z) :
  MIN_PULSE = 1020 /\ MAX_PULSE = 2000 /\
  MIN_PULSE <= mapJoystickToPulseBidirectional v <= MAX_PULSE.
Proof.
  split; [reflexivity|]. split; [reflexivity|]. apply pulse_bounds.
Qed.

(** C2: every axis value of magnitude below the deadzone threshold 40 is
    mapped to exactly [MID_PULSE] = 1492. *)
Theorem deadzone_is_neutral (v : Z) :
  Z.abs v < 40 ->
  mapJoystickToPulseBidirectional v = MID_PULSE /\ MID_PULSE = 1492.
Proof.
  intros Hd. split; [apply pulse_inside_deadzone, Hd | reflexivity].
Qed.

Lemma deadzone_is_neutral_witness :
  Z.abs (-39) < 40 /\
  (mapJoystickToPulseBidirectional (-39) = MID_PULSE /\ MID_PULSE = 1492).
Proof.
  split; [reflexivity | apply (deadzone_is_neutral (-39)); reflexivity].
Defined.

(** C3, as stated, fails: the axis value 512 is outside the deadzone and
    is mapped to [MAX_PULSE] itself, not strictly below it (and -511 to
    [MIN_PULSE] itself).  Monotonicity stops where the 32-bit product
    wraps: 2190798 is mapped below 600. *)
Lemma full_deflection_reaches_max :
  40 <= Z.abs 512 /\
  mapJoystickToPulseBidirectional 512 = MAX_PULSE /\
  mapJoystickToPulseBidirectional (-511) = MIN_PULSE /\
  mapJoystickToPulseBidirectional 2190798 < mapJoystickToPulseBidirectional 600 /\
  ~ (MIN_PULSE < mapJoystickToPulseBidirectional 512 < MAX_PULSE).
Proof.
  split; [discriminate|].
  split; [reflexivity|]. split; [reflexivity|]. split; [reflexivity|].
  change (mapJoystickToPulseBidirectional 512) with 2000.
  unfold MAX_PULSE. lia.
Qed.

(** C3, amended: for every axis value [v] outside the deadzone whose
    interpolation product fits 32 bits, the pulse lies in the closed
    interval [[MIN_PULSE, MAX_PULSE]]; it is strictly above [MIN_PULSE]
    exactly when [-510 <= v] and strictly below [MAX_PULSE] exactly when
    [v <= 511]; and the pulse never decreases when the axis value grows to
    another such value [v']. *)
Theorem pulse_outside_deadzone_closed_and_monotone (v : Z) :
  product_fits v -> 40 <= Z.abs v ->
  MIN_PULSE <= mapJoystickToPulseBidirectional v <= MAX_PULSE /\
  (MIN_PULSE < mapJoystickToPulseBidirectional v <-> -510 <= v) /\
  (mapJoystickToPulseBidirectional v < MAX_PULSE <-> v <= 511) /\
  (forall v', product_fits v' -> 40 <= Z.abs v' -> v <= v' ->
     mapJoystickToPulseBidirectional v <= mapJoystickToPulseBidirectional v').
Proof.
  intros Hv Hd. split; [apply pulse_bounds|].
  split; [apply pulse_above_min_iff; assumption|].
  split; [apply pulse_below_max_iff; assumption|].
  intros v' Hv' _ Hle. apply pulse_mono; assumption.
Qed.

Lemma pulse_outside_deadzone_closed_and_monotone_witness :
  product_fits 512 /\ 40 <= Z.abs 512 /\
  (MIN_PULSE <= mapJoystickToPulseBidirectional 512 <= MAX_PULSE /\
   (MIN_PULSE < mapJoystickToPulseBidirectional 512 <-> -510 <= 512) /\
   (mapJoystickToPulseBidirectional 512 < MAX_PULSE <-> 512 <= 511) /\
   (forall v', product_fits v' -> 40 <= Z.abs v' -> 512 <= v' ->
      mapJoystickToPulseBidirectional 512 <= mapJoystickToPulseBidirectional v')).
Proof.
  split; [unfold product_fits, AXIS_LO, AXIS_HI; lia|].
  split; [discriminate|].
  apply (pulse_outside_deadzone_closed_and_monotone 512);
    [unfold product_fits, AXIS_LO, AXIS_HI; lia | discriminate].
Defined.

(** C4, as stated, fails: 600 and 2190798 are both positive and outside
    the deadzone, yet the larger one is mapped to a smaller pulse, because
    the product [(2190798 + 512) * 980] no longer fits a 32-bit [long]. *)
Lemma huge_axis_breaks_monotonicity :
  600 < 2190798 /\ 40 <= Z.abs 600 /\ 40 <= Z.abs 2190798 /\
  0 < 600 /\ 0 < 2190798 /\
  mapJoystickToPulseBidirectional 600 = 2000 /\
  mapJoystickToPulseBidirectional 2190798 = 1020 /\
  ~ (mapJoystickToPulseBidirectional 600 <= mapJoystickToPulseBidirectional 2190798).
Proof.
  repeat (split; [reflexivity || discriminate|]).
  change (mapJoystickToPulseBidirectional 600) with 2000.
  change (mapJoystickToPulseBidirectional 2190798) with 1020. lia.
Qed.

(** C4, amended: for every pair of axis values [v1 < v2] of the same sign,
    both at or above the deadzone magnitude and both within
    [[AXIS_LO, AXIS_HI]] = [[-2191821, 2190797]] (where the interpolation
    product fits 32 bits), the pulse of [v1] is at most the pulse of [v2]
    and both pulses lie in [[MIN_PULSE, MAX_PULSE]] = [[1020, 2000]]. *)
Theorem pulse_monotone_same_sign (v1 v2 : Z) :
  product_fits v1 -> product_fits v2 ->
  v1 < v2 -> 40 <= Z.abs v1 -> 40 <= Z.abs v2 -> 0 < v1 * v2 ->
  mapJoystickToPulseBidirectional v1 <= mapJoystickToPulseBidirectional v2 /\
  1020 <= mapJoystickToPulseBidirectional v1 <= 2000 /\
  1020 <= mapJoystickToPulseBidirectional v2 <= 2000.
Proof.
  intros H1 H2 Hlt _ _ _.
  split; [apply pulse_mono; try assumption; lia|].
  split; apply pulse_bounds.
Qed.

Lemma pulse_monotone_same_sign_witness :
  product_fits (-512) /\ product_fits (-40) /\
  -512 < -40 /\ 40 <= Z.abs (-512) /\ 40 <= Z.abs (-40) /\ 0 < -512 * -40 /\
  (mapJoystickToPulseBidirectional (-512) <= mapJoystickToPulseBidirectional (-40) /\
   1020 <= mapJoystickToPulseBidirectional (-512) <= 2000 /\
   1020 <= mapJoystickToPulseBidirectional (-40) <= 2000).
Proof.
  assert (product_fits (-512)) as H1 by (unfold product_fits, AXIS_LO, AXIS_HI; lia).
  assert (product_fits (-40)) as H2 by (unfold product_fits, AXIS_LO, AXIS_HI; lia).
  split; [exact H1|]. split; [exact H2|].
  split; [reflexivity|]. split; [discriminate|]. split; [discriminate|].
  split; [reflexivity|].
  apply (pulse_monotone_same_sign (-512) (-40));
    [exact H1 | exact H2 | reflexivity | discriminate | discriminate | reflexivity].
Defined.

(** C10: the mapper jumps at the deadzone boundary: 39 is mapped to
    [MID_PULSE] = 1492 and 40 to 1548, 56 microseconds apart, while the
    interpolation of [[-512, 512]] onto [[1020, 2000]] gives 1510 at 0,
    which differs from [MID_PULSE]. *)
Theorem deadzone_boundary_jump :
  mapJoystickToPulseBidirectional 39 = MID_PULSE /\
  MID_PULSE = 1492 /\
  mapJoystickToPulseBidirectional 40 = 1548 /\
  mapJoystickToPulseBidirectional 40 - mapJoystickToPulseBidirectional 39 = 56 /\
  Arduino.map 0 (-512) 512 MIN_PULSE MAX_PULSE = 1510 /\
  Arduino.map 0 (-512) 512 MIN_PULSE MAX_PULSE <> MID_PULSE.
Proof.
  repeat (split; [reflexivity|]). discriminate.
Qed.

(** ** Dispatch of one controller: the claims *)

Section Dispatch.
Context `{Bluepad32}.

(** C5: an axis reading of -600, outside the domain [[-512, 512]], is
    inverted to 600 by the dispatch code; the interpolation of 600 onto
    [[1020, 2000]] gives 2084, above [MAX_PULSE]; the clamp brings the
    pulse to exactly 2000, which is what the motors of that side
    receive. *)
Theorem out_of_domain_reading_clamped (ctl : Controller) (s : Sketch) :
  isConnected ctl = true -> axisY ctl = -600 ->
  Int32.neg (axisY ctl) = 600 /\
  Arduino.map 600 (-512) 512 MIN_PULSE MAX_PULSE = 2084 /\
  MAX_PULSE < 2084 /\
  mapJoystickToPulseBidirectional 600 = 2000 /\
  MAX_PULSE = 2000 /\
  motor1 (updateMotorsFromController ctl s) = 2000 /\
  motor2 (updateMotorsFromController ctl s) = 2000.
Proof.
  intros Hc Hy. rewrite Hy.
  repeat (split; [reflexivity|]).
  unfold updateMotorsFromController. rewrite Hc, Hy. cbv zeta.
  change (mapJoystickToPulseBidirectional (Int32.neg (-600))) with 2000.
  cbn [negb].
  destruct (Z.land _ BUTTON_Y =? 0), (Z.land _ BUTTON_A =? 0); split; reflexivity.
Qed.

(** C6: when the button mask of a connected controller has both
    [BUTTON_Y] (raise) and [BUTTON_A] (lower) set, its update leaves the
    arm servo at [SERVO_DOWN]: the raise check runs first and the lower
    check after it, as the two serial lines record. *)
Theorem both_buttons_leave_servo_down (ctl : Controller) (s : Sketch) :
  isConnected ctl = true ->
  Z.land (to_uint16 (buttons ctl)) BUTTON_Y <> 0 ->
  Z.land (to_uint16 (buttons ctl)) BUTTON_A <> 0 ->
  armServo (updateMotorsFromController ctl s) = SERVO_DOWN /\
  exists line,
    serial (updateMotorsFromController ctl s) =
      serial s ++ [ServoUpLine; ServoDownLine; line].
Proof.
  intros Hc Hy Ha. unfold updateMotorsFromController.
  rewrite Hc. cbv zeta. cbn [negb].
  apply Z.eqb_neq in Hy. apply Z.eqb_neq in Ha. rewrite Hy, Ha.
  split; [reflexivity|].
  eexists. cbn. rewrite <- !app_assoc. reflexivity.
Qed.

End Dispatch.

Lemma out_of_domain_reading_clamped_witness :
  let ctl := {| isConnected := true; axisY := -600; axisRY := 0; buttons := 0 |} in
  let s := @boot bluepad32_esp32 in
  isConnected ctl = true /\ axisY ctl = -600 /\
  motor1 (@updateMotorsFromController bluepad32_esp32 ctl s) = 2000.
Proof.
  intros ctl s. split; [reflexivity|]. split; [reflexivity|].
  apply (@out_of_domain_reading_clamped bluepad32_esp32 ctl s); reflexivity.
Defined.

Lemma both_buttons_leave_servo_down_witness :
  let ctl := {| isConnected := true; axisY := 0; axisRY := 0; buttons := 9 |} in
  let s := armServo_write SERVO_UP (@boot bluepad32_esp32) in
  isConnected ctl = true /\
  Z.land (to_uint16 (buttons ctl)) (@BUTTON_Y bluepad32_esp32) <> 0 /\
  Z.land (to_uint16 (buttons ctl)) (@BUTTON_A bluepad32_esp32) <> 0 /\
  armServo (@updateMotorsFromController bluepad32_esp32 ctl s) = SERVO_DOWN.
Proof.
  intros ctl s.
  split; [reflexivity|]. split; [discriminate|]. split; [discriminate|].
  apply (@both_buttons_leave_servo_down bluepad32_esp32 ctl s);
    [reflexivity | discriminate | discriminate].
Defined.

(** ** Controller slot registry *)

Local Open Scope nat_scope.

(** A decidable property of indices below a bound has a least witness or
    none at all. *)
Lemma least_index (Q : nat -> Prop) `{!forall k, Decision (Q k)} (n : nat) :
  (exists j, j < n /\ Q j /\ forall k, k < j -> ~ Q k) \/
  (forall k, k < n -> ~ Q k).
Proof.
  induction n as [|n [(j & Hj & HQ & Hmin)|Hnone]].
  - right. intros k Hk. lia.
  - left. exists j. split; [lia|]. split; assumption.
  - destruct (decide (Q n)) as [HQ|HQ].
    + left. exists n. split; [lia|]. split; [assumption|].
      intros k Hk. apply Hnone, Hk.
    + right. intros k Hk. destruct (decide (k = n)) as [->|Hne]; [assumption|].
      apply Hnone. lia.
Qed.

Section Registry.
Context `{Bluepad32}.

Lemma connect_scan_hit n i j ctl s :
  i <= j -> j < i + n ->
  controllers s !! j = Some nullptr ->
  (forall k, i <= k -> k < j -> controllers s !! k <> Some nullptr) ->
  connect_scan n i ctl s =
    Serial_print (ControllerConnectedAt j ctl) (set_controller j ctl s).
Proof.
  revert i. induction n as [|n IH]; intros i Hij Hjn Hj Hbefore; [lia|].
  simpl. destruct (decide (i = j)) as [->|Hne].
  - rewrite Hj. rewrite decide_True by reflexivity. reflexivity.
  - assert (is_Some (controllers s !! i)) as [p Hp].
    { apply lookup_lt_is_Some. apply lookup_lt_Some in Hj. lia. }
    rewrite Hp. destruct (decide (p = nullptr)) as [->|Hp'].
    + exfalso. apply (Hbefore i); [lia|lia|assumption].
    + apply IH; [lia|lia|assumption|].
      intros k Hk1 Hk2. apply Hbefore; lia.
Qed.

Lemma connect_scan_miss n i ctl s :
  (forall k, i <= k -> k < i + n -> controllers s !! k <> Some nullptr) ->
  connect_scan n i ctl s = s.
Proof.
  revert i. induction n as [|n IH]; intros i Hall; simpl; [reflexivity|].
  destruct (controllers s !! i) as [p|] eqn:Hp; [|reflexivity].
  destruct (decide (p = nullptr)) as [->|Hp'].
  - exfalso. apply (Hall i); [lia|lia|assumption].
  - apply IH. intros k Hk1 Hk2. apply Hall; lia.
Qed.

Lemma disconnect_scan_hit n i j ctl s :
  i <= j -> j < i + n ->
  controllers s !! j = Some ctl ->
  (forall k, i <= k -> k < j -> controllers s !! k <> Some ctl) ->
  disconnect_scan n i ctl s =
    set_controller j nullptr (Serial_print (ControllerDisconnectedAt j) s).
Proof.
  revert i. induction n as [|n IH]; intros i Hij Hjn Hj Hbefore; [lia|].
  simpl. destruct (decide (i = j)) as [->|Hne].
  - rewrite Hj. rewrite decide_True by reflexivity. reflexivity.
  - assert (is_Some (controllers s !! i)) as [p Hp].
    { apply lookup_lt_is_Some. apply lookup_lt_Some in Hj. lia. }
    rewrite Hp. destruct (decide (p = ctl)) as [->|Hp'].
    + exfalso. apply (Hbefore i); [lia|lia|assumption].
    + apply IH; [lia|lia|assumption|].
      intros k Hk1 Hk2. apply Hbefore; lia.
Qed.

Lemma disconnect_scan_miss n i ctl s :
  (forall k, i <= k -> k < i + n -> controllers s !! k <> Some ctl) ->
  disconnect_scan n i ctl s = s.
Proof.
  revert i. induction n as [|n IH]; intros i Hall; simpl; [reflexivity|].
  destruct (controllers s !! i) as [p|] eqn:Hp; [|reflexivity].
  destruct (decide (p = ctl)) as [->|Hp'].
  - exfalso. apply (Hall i); [lia|lia|assumption].
  - apply IH. intros k Hk1 Hk2. apply Hall; lia.
Qed.

(** [onConnectedController] stores the device in the lowest empty slot
    below the capacity and reports it, or changes nothing. *)
Lemma onConnectedController_cases ctl s :
  (exists j, j < BP32_MAX_GAMEPADS /\
     controllers s !! j = Some nullptr /\
     (forall k, k < j -> controllers s !! k <> Some nullptr) /\
     onConnectedController ctl s =
       Serial_print (ControllerConnectedAt j ctl) (set_controller j ctl s)) \/
  ((forall k, k < BP32_MAX_GAMEPADS -> controllers s !! k <> Some nullptr) /\
   onConnectedController ctl s = s).
Proof.
  destruct (least_index (fun k => controllers s !! k = Some nullptr)
              BP32_MAX_GAMEPADS) as [(j & Hj & Hnull & Hmin)|Hnone].
  - left. exists j. repeat split; try assumption.
    apply connect_scan_hit; [lia|lia|assumption|].
    intros k _ Hk. apply Hmin, Hk.
  - right. split; [assumption|].
    apply connect_scan_miss. intros k _ Hk. apply Hnone. lia.
Qed.

(** [onDisconnectedController] clears the lowest slot holding the device
    and reports it, or changes nothing. *)
Lemma onDisconnectedController_cases ctl s :
  (exists j, j < BP32_MAX_GAMEPADS /\
     controllers s !! j = Some ctl /\
     (forall k, k < j -> controllers s !! k <> Some ctl) /\
     onDisconnectedController ctl s =
       set_controller j nullptr (Serial_print (ControllerDisconnectedAt j) s)) \/
  ((forall k, k < BP32_MAX_GAMEPADS -> controllers s !! k <> Some ctl) /\
   onDisconnectedController ctl s = s).
Proof.
  destruct (least_index (fun k => controllers s !! k = Some ctl)
              BP32_MAX_GAMEPADS) as [(j & Hj & Hctl & Hmin)|Hnone].
  - left. exists j. repeat split; try assumption.
    apply disconnect_scan_hit; [lia|lia|assumption|].
    intros k _ Hk. apply Hmin, Hk.
  - right. split; [assumption|].
    apply disconnect_scan_miss. intros k _ Hk. apply Hnone. lia.
Qed.

Lemma onConnectedController_length ctl s :
  length (controllers (onConnectedController ctl s)) = length (controllers s).
Proof.
  destruct (onConnectedController_cases ctl s) as [(j & _ & _ & _ & ->)|[_ ->]];
    [|reflexivity].
  simpl. apply length_insert.
Qed.

Lemma onDisconnectedController_length ctl s :
  length (controllers (onDisconnectedController ctl s)) = length (controllers s).
Proof.
  destruct (onDisconnectedController_cases ctl s) as [(j & _ & _ & _ & ->)|[_ ->]];
    [|reflexivity].
  simpl. apply length_insert.
Qed.

End Registry.

Section RegistryClaims.
Context `{Bluepad32}.

Lemma live_lookup (l : list ControllerPtr) (k : nat) :
  Forall (fun p => p <> nullptr) l -> l !! k <> Some nullptr.
Proof.
  intros Hl Hk. apply (Forall_lookup_1 _ _ _ _ Hl Hk). reflexivity.
Qed.

Lemma occupied_live (l : list ControllerPtr) :
  Forall (fun p => p <> nullptr) l -> occupied l = length l.
Proof.
  unfold occupied. induction 1 as [|p l Hp Hl IH]; [reflexivity|].
  rewrite filter_cons_True by exact Hp. simpl. rewrite IH. reflexivity.
Qed.

(** Connecting live devices to the empty table fills it from index 0 on,
    in arrival order, and stops at the capacity. *)
Lemma connect_all_from_empty (s0 : Sketch) (ds : list ControllerPtr) :
  controllers s0 = replicate BP32_MAX_GAMEPADS nullptr ->
  Forall (fun p => p <> nullptr) ds ->
  controllers (handle_all (Connect <$> ds) s0) =
    take BP32_MAX_GAMEPADS ds ++
    replicate (BP32_MAX_GAMEPADS - length ds) nullptr.
Proof.
  intros H0. induction ds as [|d ds IH] using rev_ind; intros Hlive.
  - simpl. rewrite take_nil, Nat.sub_0_r. exact H0.
  - apply Forall_app in Hlive as [Hds Hd].
    specialize (IH Hds).
    unfold handle_all in *. rewrite fmap_app, foldl_app. simpl.
    set (s := foldl (fun s e => handle e s) s0 (Connect <$> ds)) in *.
    rewrite length_app. simpl.
    destruct (Nat.lt_ge_cases (length ds) BP32_MAX_GAMEPADS) as [Hlt|Hge].
    + rewrite take_ge in IH by lia.
      rewrite take_ge by (rewrite length_app; simpl; lia).
      assert (onConnectedController d s =
                Serial_print (ControllerConnectedAt (length ds) d)
                  (set_controller (length ds) d s)) as ->.
      { apply connect_scan_hit; [lia|lia| |].
        - rewrite IH, lookup_app_r by lia.
          apply lookup_replicate_2. lia.
        - intros k _ Hk. rewrite IH, lookup_app_l by lia.
          apply live_lookup, Hds. }
      simpl. rewrite IH, insert_app_r_alt by lia.
      rewrite Nat.sub_diag.
      replace (BP32_MAX_GAMEPADS - length ds)
        with (S (BP32_MAX_GAMEPADS - (length ds + 1))) by lia.
      simpl. rewrite <- app_assoc. reflexivity.
    + rewrite take_app_le by lia.
      replace (BP32_MAX_GAMEPADS - (length ds + 1))
        with (BP32_MAX_GAMEPADS - length ds) by lia.
      destruct (onConnectedController_cases d s)
        as [(j & _ & Hj & _)|[_ ->]]; [|exact IH].
      exfalso. revert Hj. rewrite IH. apply live_lookup.
      apply Forall_app. split; [apply Forall_take, Hds|].
      replace (BP32_MAX_GAMEPADS - length ds) with 0 by lia. constructor.
Qed.

(** C7: starting from the empty table of capacity [BP32_MAX_GAMEPADS],
    after that many distinct devices have connected, the connection of
    one more distinct device leaves exactly [BP32_MAX_GAMEPADS] occupied
    slots, registers the newcomer in no slot, and changes nothing at all:
    the handler returns normally and writes no serial line. *)
Theorem extra_device_silently_dropped
    (s0 : Sketch) (ds : list ControllerPtr) (d : ControllerPtr) :
  controllers s0 = replicate BP32_MAX_GAMEPADS nullptr ->
  length ds = BP32_MAX_GAMEPADS ->
  NoDup (ds ++ [d]) ->
  Forall (fun p => p <> nullptr) (ds ++ [d]) ->
  let s := handle_all (Connect <$> ds) s0 in
  let s' := handle_all (Connect <$> (ds ++ [d])) s0 in
  s' = onConnectedController d s /\
  occupied (controllers s') = BP32_MAX_GAMEPADS /\
  (d ∉ controllers s') /\
  controllers s' = ds /\
  serial s' = serial s /\
  s' = s.
Proof.
  intros H0 Hlen Hnd Hlive s s'.
  apply Forall_app in Hlive as [Hds Hd].
  apply NoDup_app in Hnd as (_ & Hfresh & _).
  assert (controllers s = ds) as Hs.
  { unfold s. rewrite connect_all_from_empty by assumption.
    rewrite take_ge by lia. rewrite Hlen, Nat.sub_diag. apply app_nil_r. }
  assert (s' = onConnectedController d s) as Hs'.
  { unfold s', s, handle_all. rewrite fmap_app, foldl_app. reflexivity. }
  assert (onConnectedController d s = s) as Hdrop.
  { destruct (onConnectedController_cases d s)
      as [(j & _ & Hj & _)|[_ Heq]]; [|exact Heq].
    exfalso. revert Hj. rewrite Hs. apply live_lookup, Hds. }
  rewrite Hs', Hdrop, Hs.
  repeat split.
  - rewrite occupied_live by exact Hds. exact Hlen.
  - intros Hin. apply (Hfresh d Hin). apply list_elem_of_singleton. reflexivity.
Qed.

Lemma empty_table_no_shared_device n : no_shared_device (replicate n nullptr).
Proof.
  intros i j p Hi _ Hp. apply lookup_replicate in Hi as [Hi _].
  exfalso. apply Hp. exact Hi.
Qed.

Lemma holds_false ctl s :
  holds ctl s = false -> ctl <> nullptr -> ctl ∉ controllers s.
Proof.
  unfold holds. intros Hh Hctl Hin.
  apply bool_decide_eq_false in Hh. apply Hh. split; assumption.
Qed.

Lemma connect_keeps_no_shared_device ctl s :
  no_shared_device (controllers s) -> holds ctl s = false ->
  no_shared_device (controllers (onConnectedController ctl s)).
Proof.
  intros Hinv Hfresh.
  destruct (onConnectedController_cases ctl s)
    as [(j & _ & _ & _ & ->)|[_ ->]]; [|exact Hinv].
  simpl. intros i i' p Hi Hi' Hp.
  apply list_lookup_insert_Some in Hi as [(-> & -> & _)|[Hne Hi]];
    apply list_lookup_insert_Some in Hi' as [(-> & He & _)|[Hne' Hi']].
  - reflexivity.
  - exfalso. apply (holds_false _ _ Hfresh Hp).
    apply (list_elem_of_lookup_2 _ i'). exact Hi'.
  - subst p. exfalso. apply (holds_false _ _ Hfresh Hp).
    apply (list_elem_of_lookup_2 _ i). exact Hi.
  - apply (Hinv i i' p); assumption.
Qed.

Lemma disconnect_keeps_no_shared_device ctl s :
  no_shared_device (controllers s) ->
  no_shared_device (controllers (onDisconnectedController ctl s)).
Proof.
  intros Hinv.
  destruct (onDisconnectedController_cases ctl s)
    as [(j & _ & _ & _ & ->)|[_ ->]]; [|exact Hinv].
  simpl. intros i i' p Hi Hi' Hp.
  apply list_lookup_insert_Some in Hi as [(_ & He & _)|[Hne Hi]];
    [exfalso; apply Hp; symmetry; exact He|].
  apply list_lookup_insert_Some in Hi' as [(_ & He & _)|[Hne' Hi']];
    [exfalso; apply Hp; symmetry; exact He|].
  apply (Hinv i i' p); assumption.
Qed.

Lemma handle_all_keeps_no_shared_device es s :
  no_shared_device (controllers s) -> connects_fresh es s = true ->
  no_shared_device (controllers (handle_all es s)).
Proof.
  revert s. induction es as [|e es IH]; intros s Hinv Hfresh; [exact Hinv|].
  simpl in Hfresh. apply andb_true_iff in Hfresh as [He Hes].
  unfold handle_all. simpl. apply IH; [|exact Hes].
  destruct e as [ctl|ctl]; simpl.
  - apply connect_keeps_no_shared_device; [exact Hinv|].
    apply negb_true_iff, He.
  - apply disconnect_keeps_no_shared_device, Hinv.
Qed.

(** When [A] holds a slot once [connect(A)] has run, [j] being the lowest
    such slot, [disconnect(A)] vacates slot [j] and [connect(B)] fills
    it. *)
Lemma vacated_slot_refilled (s : Sketch) (A B : ControllerPtr) (j : nat) :
  length (controllers s) = BP32_MAX_GAMEPADS ->
  controllers (onConnectedController A s) !! j = Some A ->
  (forall k, k < j -> controllers (onConnectedController A s) !! k <> Some A) ->
  controllers
    (onConnectedController B
       (onDisconnectedController A (onConnectedController A s))) !! j = Some B.
Proof.
  intros Hlen Hj Hmin.
  assert (forall k, k < j ->
            controllers (onConnectedController A s) !! k <> Some nullptr) as Hlive.
  { destruct (onConnectedController_cases A s)
      as [(i & Hi & Hnull & Hbefore & Heq)|[Hfull Heq]].
    - rewrite Heq in Hj, Hmin |- *. simpl in *.
      assert (j <= i).
      { destruct (Nat.le_gt_cases j i) as [Hle|Hgt]; [exact Hle|].
        exfalso. apply (Hmin i Hgt). apply list_lookup_insert_eq. lia. }
      intros k Hk. rewrite list_lookup_insert_ne by lia.
      apply Hbefore. lia.
    - rewrite Heq in Hj |- *. intros k Hk. apply Hfull.
      apply lookup_lt_Some in Hj. lia. }
  set (s1 := onConnectedController A s) in *.
  assert (length (controllers s1) = BP32_MAX_GAMEPADS) as Hlen1.
  { unfold s1. rewrite onConnectedController_length. exact Hlen. }
  assert (j < BP32_MAX_GAMEPADS) as Hjlt.
  { apply lookup_lt_Some in Hj. lia. }
  assert (onDisconnectedController A s1 =
            set_controller j nullptr
              (Serial_print (ControllerDisconnectedAt j) s1)) as ->.
  { apply disconnect_scan_hit; [lia|lia|exact Hj|].
    intros k _ Hk. apply Hmin, Hk. }
  set (s2 := set_controller j nullptr _).
  assert (onConnectedController B s2 =
            Serial_print (ControllerConnectedAt j B) (set_controller j B s2)) as ->.
  { apply connect_scan_hit; [lia|lia| |].
    - unfold s2. simpl. apply list_lookup_insert_eq. lia.
    - intros k _ Hk. unfold s2. simpl.
      rewrite list_lookup_insert_ne by lia. apply Hlive, Hk. }
  unfold s2. simpl. apply list_lookup_insert_eq.
  rewrite length_insert. lia.
Qed.

(** C8, amended: for every state of the table, running [connect(A)],
    [disconnect(A)] and [connect(B)] in a row either leaves [B] in the slot
    index [A] held (the lowest slot holding [A] once [connect(A)] has run,
    which is the one [disconnect(A)] vacates), or, when the table is full
    and does not hold [A], changes nothing at all. *)
Theorem vacated_slot_goes_to_next_device (s : Sketch) (A B : ControllerPtr) :
  length (controllers s) = BP32_MAX_GAMEPADS ->
  let s1 := onConnectedController A s in
  let s3 := onConnectedController B (onDisconnectedController A s1) in
  (exists j, j < BP32_MAX_GAMEPADS /\
     controllers s1 !! j = Some A /\
     (forall k, k < j -> controllers s1 !! k <> Some A) /\
     controllers s3 !! j = Some B) \/
  ((forall k, k < BP32_MAX_GAMEPADS ->
      controllers s !! k <> Some nullptr /\ controllers s !! k <> Some A) /\
   s1 = s /\ s3 = s).
Proof.
  intros Hlen s1 s3.
  destruct (least_index (fun k => controllers s1 !! k = Some A)
              BP32_MAX_GAMEPADS) as [(j & Hj & HA & Hmin)|Hnone].
  - left. exists j. repeat split; try assumption.
    apply vacated_slot_refilled; assumption.
  - right.
    assert ((forall k, k < BP32_MAX_GAMEPADS ->
               controllers s !! k <> Some nullptr) /\ s1 = s) as [Hfull Hs1].
    { destruct (onConnectedController_cases A s)
        as [(i & Hi & _ & _ & Heq)|[Hfull Heq]]; [|split; assumption].
      exfalso. apply (Hnone i Hi). unfold s1. rewrite Heq. simpl.
      apply list_lookup_insert_eq. lia. }
    assert (onDisconnectedController A s1 = s1) as Hs2.
    { apply disconnect_scan_miss. intros k _ Hk. apply Hnone. lia. }
    assert (s3 = s) as Hs3.
    { unfold s3. rewrite Hs2, Hs1.
      apply connect_scan_miss. intros k _ Hk. apply Hfull. lia. }
    split; [|split; assumption].
    intros k Hk. split; [apply Hfull, Hk|].
    rewrite <- Hs1. apply Hnone, Hk.
Qed.

(** C9, amended: for every sequence of connect and disconnect events
    applied to the empty table in which each connect event carries a
    device that holds no slot when the event is delivered, the resulting
    table never has the same device in two distinct live slots. *)
Theorem fresh_connects_never_share_a_device (s0 : Sketch) (es : list Event) :
  controllers s0 = replicate BP32_MAX_GAMEPADS nullptr ->
  connects_fresh es s0 = true ->
  no_shared_device (controllers (handle_all es s0)).
Proof.
  intros H0 Hfresh. apply handle_all_keeps_no_shared_device; [|exact Hfresh].
  rewrite H0. apply empty_table_no_shared_device.
Qed.

End RegistryClaims.

(** ** Controller slot registry: evaluation on the four-slot table *)

Lemma extra_device_silently_dropped_witness :
  let s0 := @boot bluepad32_esp32 in
  let ds := [1; 2; 3; 4]%N in
  let d := 5%N in
  controllers s0 = replicate (@BP32_MAX_GAMEPADS bluepad32_esp32) nullptr /\
  length ds = @BP32_MAX_GAMEPADS bluepad32_esp32 /\
  NoDup (ds ++ [d]) /\
  Forall (fun p => p <> nullptr) (ds ++ [d]) /\
  (let s := @handle_all bluepad32_esp32 (Connect <$> ds) s0 in
   let s' := @handle_all bluepad32_esp32 (Connect <$> (ds ++ [d])) s0 in
   s' = @onConnectedController bluepad32_esp32 d s /\
   occupied (controllers s') = @BP32_MAX_GAMEPADS bluepad32_esp32 /\
   (d ∉ controllers s') /\
   controllers s' = ds /\
   serial s' = serial s /\
   s' = s).
Proof.
  intros s0 ds d.
  assert (NoDup (ds ++ [d])) as Hnd.
  { apply (bool_decide_unpack _). vm_compute. reflexivity. }
  assert (Forall (fun p => p <> nullptr) (ds ++ [d])) as Hlive.
  { repeat constructor; discriminate. }
  split; [reflexivity|]. split; [reflexivity|].
  split; [exact Hnd|]. split; [exact Hlive|].
  apply (@extra_device_silently_dropped bluepad32_esp32 s0 ds d);
    [reflexivity | reflexivity | exact Hnd | exact Hlive].
Defined.

(** C8, as stated, fails on a full table: with devices 1 to 4 in the four
    slots, [connect(5)], [disconnect(5)] and [connect(6)] all change
    nothing, so device 5 never holds a slot and device 6 occupies none. *)
Lemma full_table_reuses_no_slot :
  let s := @handle_all bluepad32_esp32 (Connect <$> [1; 2; 3; 4]%N)
             (@boot bluepad32_esp32) in
  let s1 := @onConnectedController bluepad32_esp32 5%N s in
  let s3 := @onConnectedController bluepad32_esp32 6%N
              (@onDisconnectedController bluepad32_esp32 5%N s1) in
  controllers s = [1; 2; 3; 4]%N /\
  controllers s3 = [1; 2; 3; 4]%N /\
  ~ (exists i, controllers s1 !! i = Some 5%N /\ controllers s3 !! i = Some 6%N).
Proof.
  intros s s1 s3.
  assert (controllers s3 = [1; 2; 3; 4]%N) as H3 by reflexivity.
  split; [reflexivity|]. split; [exact H3|].
  intros (i & _ & Hi). rewrite H3 in Hi.
  do 4 (destruct i as [|i]; [discriminate Hi|]). discriminate Hi.
Qed.

Lemma vacated_slot_goes_to_next_device_witness :
  let s := @handle_all bluepad32_esp32 [Connect 1%N; Connect 2%N]
             (@boot bluepad32_esp32) in
  length (controllers s) = @BP32_MAX_GAMEPADS bluepad32_esp32 /\
  (let s1 := @onConnectedController bluepad32_esp32 5%N s in
   let s3 := @onConnectedController bluepad32_esp32 6%N
               (@onDisconnectedController bluepad32_esp32 5%N s1) in
   (exists j, j < @BP32_MAX_GAMEPADS bluepad32_esp32 /\
      controllers s1 !! j = Some 5%N /\
      (forall k, k < j -> controllers s1 !! k <> Some 5%N) /\
      controllers s3 !! j = Some 6%N) \/
   ((forall k, k < @BP32_MAX_GAMEPADS bluepad32_esp32 ->
       controllers s !! k <> Some nullptr /\ controllers s !! k <> Some 5%N) /\
    s1 = s /\ s3 = s)).
Proof.
  intros s. split; [reflexivity|].
  apply (@vacated_slot_goes_to_next_device bluepad32_esp32 s 5%N 6%N).
  reflexivity.
Defined.

(** C9, as stated, fails: two connect events for the same device, with no
    disconnect in between, put it in slots 0 and 1. *)
Lemma repeated_connect_shares_device :
  let s := @handle_all bluepad32_esp32 [Connect 1%N; Connect 1%N]
             (@boot bluepad32_esp32) in
  controllers s = [1; 1; 0; 0]%N /\
  ~ no_shared_device (controllers s).
Proof.
  intros s. split; [reflexivity|].
  intros Hinv. specialize (Hinv 0 1 1%N eq_refl eq_refl).
  assert (0 = 1) as Habs by (apply Hinv; discriminate).
  discriminate Habs.
Qed.

Lemma fresh_connects_never_share_a_device_witness :
  let s0 := @boot bluepad32_esp32 in
  let es := [Connect 1%N; Connect 2%N; Disconnect 1%N; Connect 3%N; Connect 1%N] in
  controllers s0 = replicate (@BP32_MAX_GAMEPADS bluepad32_esp32) nullptr /\
  @connects_fresh bluepad32_esp32 es s0 = true /\
  no_shared_device (controllers (@handle_all bluepad32_esp32 es s0)).
Proof.
  intros s0 es. split; [reflexivity|]. split; [vm_compute; reflexivity|].
  apply (@fresh_connects_never_share_a_device bluepad32_esp32 s0 es);
    [reflexivity | vm_compute; reflexivity].
Defined.

(** * Further properties of the sketch *)

(** ** The connection handlers *)

Lemma occupied_insert_live (l : list ControllerPtr) (j : nat) (ctl : ControllerPtr) :
  l !! j = Some nullptr -> ctl <> nullptr ->
  occupied (<[j:=ctl]> l) = S (occupied l).
Proof.
  unfold occupied. revert j. induction l as [|p l IH]; intros j Hj Hctl; [discriminate|].
  destruct j as [|j]; simpl in Hj |- *.
  - injection Hj as ->.
    rewrite (filter_cons_True _ ctl) by exact Hctl.
    rewrite (filter_cons_False _ nullptr) by (intros Hn; apply Hn; reflexivity).
    reflexivity.
  - destruct (decide (p <> nullptr)) as [Hp|Hp].
    + rewrite !filter_cons_True by exact Hp. simpl. rewrite IH by assumption.
      reflexivity.
    + rewrite !filter_cons_False by exact Hp. apply IH; assumption.
Qed.

Lemma occupied_insert_null (l : list ControllerPtr) (j : nat) (ctl : ControllerPtr) :
  l !! j = Some ctl -> ctl <> nullptr ->
  S (occupied (<[j:=nullptr]> l)) = occupied l.
Proof.
  unfold occupied. revert j. induction l as [|p l IH]; intros j Hj Hctl; [discriminate|].
  destruct j as [|j]; simpl in Hj |- *.
  - injection Hj as ->.
    rewrite (filter_cons_True _ ctl) by exact Hctl.
    rewrite (filter_cons_False _ nullptr) by (intros Hn; apply Hn; reflexivity).
    reflexivity.
  - destruct (decide (p <> nullptr)) as [Hp|Hp].
    + rewrite !filter_cons_True by exact Hp. simpl. rewrite IH by assumption.
      reflexivity.
    + rewrite !filter_cons_False by exact Hp. apply IH; assumption.
Qed.

Section HandlerFacts.
Context `{Bluepad32}.

(** X1: when slot [j] is the lowest empty slot below the capacity,
    [onConnectedController] stores the device exactly there, leaves every
    other entry as it was, and reports index [j] with the device on the
    serial line. *)
Theorem connect_takes_lowest_empty_slot
    (ctl : ControllerPtr) (s : Sketch) (j : nat) :
  j < BP32_MAX_GAMEPADS ->
  controllers s !! j = Some nullptr ->
  (forall k, k < j -> controllers s !! k <> Some nullptr) ->
  controllers (onConnectedController ctl s) = <[j:=ctl]> (controllers s) /\
  serial (onConnectedController ctl s) =
    serial s ++ [ControllerConnectedAt j ctl].
Proof.
  intros Hj Hnull Hmin.
  assert (onConnectedController ctl s =
            Serial_print (ControllerConnectedAt j ctl) (set_controller j ctl s)) as ->.
  { apply connect_scan_hit; [lia|lia|exact Hnull|].
    intros k _ Hk. apply Hmin, Hk. }
  split; reflexivity.
Qed.

Lemma disconnect_absent (ctl : ControllerPtr) (s : Sketch) :
  ctl ∉ controllers s -> onDisconnectedController ctl s = s.
Proof.
  intros Hout. apply disconnect_scan_miss. intros k _ _ Hk.
  apply Hout. apply (list_elem_of_lookup_2 _ k). exact Hk.
Qed.

(** X2: a disconnect event for a device that is in no slot changes
    nothing: no entry is cleared and no line is written. *)
Theorem stale_disconnect_is_noop (ctl : ControllerPtr) (s : Sketch) :
  ctl ∉ controllers s -> onDisconnectedController ctl s = s.
Proof. apply disconnect_absent. Qed.

(** X3: on any table without an empty slot, whatever put the devices
    there, [onConnectedController] changes nothing: the newcomer is
    dropped and no line is written. *)
Theorem connect_on_full_table_is_noop (ctl : ControllerPtr) (s : Sketch) :
  Forall (fun p => p <> nullptr) (controllers s) ->
  onConnectedController ctl s = s.
Proof.
  intros Hfull. apply connect_scan_miss. intros k _ _.
  apply live_lookup, Hfull.
Qed.

(** X4: connecting a device that holds no slot and disconnecting it again
    restores the table; the serial output either is unchanged (the device
    was dropped) or gained the two lines of the same slot index. *)
Theorem connect_disconnect_restores_table (A : ControllerPtr) (s : Sketch) :
  A <> nullptr -> A ∉ controllers s ->
  let s' := onDisconnectedController A (onConnectedController A s) in
  controllers s' = controllers s /\
  (serial s' = serial s \/
   exists j, serial s' =
     serial s ++ [ControllerConnectedAt j A; ControllerDisconnectedAt j]).
Proof.
  intros HA Hout s'. unfold s'.
  destruct (onConnectedController_cases A s)
    as [(j & Hj & Hnull & _ & ->)|[_ ->]].
  - set (s1 := Serial_print _ _).
    assert (j < length (controllers s)) as Hlen by (apply lookup_lt_Some in Hnull; lia).
    assert (onDisconnectedController A s1 =
              set_controller j nullptr
                (Serial_print (ControllerDisconnectedAt j) s1)) as ->.
    { apply disconnect_scan_hit; [lia|lia| |].
      - unfold s1. simpl. apply list_lookup_insert_eq. exact Hlen.
      - intros k _ Hk Hk'. unfold s1 in Hk'. simpl in Hk'.
        rewrite list_lookup_insert_ne in Hk' by lia.
        apply Hout. apply (list_elem_of_lookup_2 _ k). exact Hk'. }
    unfold s1. simpl. split.
    + rewrite list_insert_insert_eq. apply list_insert_id. exact Hnull.
    + right. exists j. rewrite <- app_assoc. reflexivity.
  - rewrite disconnect_absent by exact Hout.
    split; [reflexivity | left; reflexivity].
Qed.

(** X5: while fewer than [BP32_MAX_GAMEPADS] slots are occupied, a
    connect event for a device registers it: one more slot is occupied and
    the device is in the table. *)
Theorem connect_with_room_registers (ctl : ControllerPtr) (s : Sketch) :
  ctl <> nullptr ->
  length (controllers s) = BP32_MAX_GAMEPADS ->
  occupied (controllers s) < BP32_MAX_GAMEPADS ->
  occupied (controllers (onConnectedController ctl s)) = S (occupied (controllers s)) /\
  ctl ∈ controllers (onConnectedController ctl s).
Proof.
  intros Hctl Hlen Hroom.
  destruct (onConnectedController_cases ctl s)
    as [(j & Hj & Hnull & _ & ->)|[Hfull _]].
  - simpl. split.
    + apply occupied_insert_live; assumption.
    + apply (list_elem_of_lookup_2 _ j). apply list_lookup_insert_eq.
      apply lookup_lt_Some in Hnull. exact Hnull.
  - exfalso.
    assert (Forall (fun p => p <> nullptr) (controllers s)) as Hlive.
    { apply Forall_lookup. intros k p Hk ->. apply (Hfull k); [|exact Hk].
      apply lookup_lt_Some in Hk. lia. }
    rewrite (occupied_live _ Hlive) in Hroom. lia.
Qed.

(** X6: a disconnect event for a device that is in the table frees
    exactly one slot, also when the device sits in several. *)
Theorem disconnect_frees_one_slot (ctl : ControllerPtr) (s : Sketch) :
  ctl <> nullptr ->
  length (controllers s) = BP32_MAX_GAMEPADS ->
  ctl ∈ controllers s ->
  S (occupied (controllers (onDisconnectedController ctl s))) =
    occupied (controllers s).
Proof.
  intros Hctl Hlen Hin.
  destruct (onDisconnectedController_cases ctl s)
    as [(j & Hj & Hat & _ & ->)|[Hnone _]].
  - simpl. apply (occupied_insert_null _ _ ctl); assumption.
  - exfalso. apply list_elem_of_lookup_1 in Hin as [k Hk].
    apply (Hnone k); [|exact Hk]. apply lookup_lt_Some in Hk. lia.
Qed.

(** X7: a registered device keeps its slot through every event except a
    disconnect event for that very device. *)
Theorem other_devices_keep_their_slot
    (e : Event) (s : Sketch) (i : nat) (p : ControllerPtr) :
  controllers s !! i = Some p -> p <> nullptr -> e <> Disconnect p ->
  controllers (handle e s) !! i = Some p.
Proof.
  intros Hi Hp He. destruct e as [ctl|ctl]; simpl.
  - destruct (onConnectedController_cases ctl s)
      as [(j & _ & Hnull & _ & ->)|[_ ->]]; [|exact Hi].
    simpl. rewrite list_lookup_insert_ne; [exact Hi|].
    intros ->. rewrite Hi in Hnull. injection Hnull as ->. apply Hp. reflexivity.
  - destruct (onDisconnectedController_cases ctl s)
      as [(j & _ & Hat & _ & ->)|[_ ->]]; [|exact Hi].
    simpl. rewrite list_lookup_insert_ne; [exact Hi|].
    intros ->. rewrite Hi in Hat. injection Hat as ->. apply He. reflexivity.
Qed.

Lemma handle_actuators (e : Event) (s : Sketch) :
  motor1 (handle e s) = motor1 s /\
  motor2 (handle e s) = motor2 s /\
  motor3 (handle e s) = motor3 s /\
  motor4 (handle e s) = motor4 s /\
  armServo (handle e s) = armServo s /\
  length (controllers (handle e s)) = length (controllers s).
Proof.
  destruct e as [ctl|ctl]; simpl.
  - destruct (onConnectedController_cases ctl s)
      as [(j & _ & _ & _ & ->)|[_ ->]]; simpl;
      rewrite ?length_insert; repeat split.
  - destruct (onDisconnectedController_cases ctl s)
      as [(j & _ & _ & _ & ->)|[_ ->]]; simpl;
      rewrite ?length_insert; repeat split.
Qed.

(** X8: no sequence of connection events ever writes to a motor or to the
    arm servo, and none changes the size of the table. *)
Theorem events_never_touch_actuators (es : list Event) (s : Sketch) :
  motor1 (handle_all es s) = motor1 s /\
  motor2 (handle_all es s) = motor2 s /\
  motor3 (handle_all es s) = motor3 s /\
  motor4 (handle_all es s) = motor4 s /\
  armServo (handle_all es s) = armServo s /\
  length (controllers (handle_all es s)) = length (controllers s).
Proof.
  revert s. induction es as [|e es IH]; intros s; [repeat split|].
  unfold handle_all. simpl. fold (handle_all es (handle e s)).
  destruct (IH (handle e s)) as (-> & -> & -> & -> & -> & ->).
  apply handle_actuators.
Qed.

End HandlerFacts.

(** ** One controller update *)

Section DispatchFacts.
Context `{Bluepad32}.

Lemma update_controllers (c : Controller) (s : Sketch) :
  controllers (updateMotorsFromController c s) = controllers s.
Proof.
  unfold updateMotorsFromController.
  destruct (isConnected c); [|reflexivity]. cbn [negb]. cbv zeta.
  destruct (Z.land _ BUTTON_Y =? 0)%Z, (Z.land _ BUTTON_A =? 0)%Z; reflexivity.
Qed.

Lemma update_motors (c : Controller) (s : Sketch) :
  isConnected c = true ->
  let s' := updateMotorsFromController c s in
  motor1 s' = mapJoystickToPulseBidirectional (Int32.neg (axisY c)) /\
  motor2 s' = mapJoystickToPulseBidirectional (Int32.neg (axisY c)) /\
  motor3 s' = mapJoystickToPulseBidirectional (Int32.neg (axisRY c)) /\
  motor4 s' = mapJoystickToPulseBidirectional (Int32.neg (axisRY c)).
Proof.
  intros Hc s'.
  unfold s', updateMotorsFromController. rewrite Hc. cbn [negb]. cbv zeta.
  destruct (Z.land _ BUTTON_Y =? 0)%Z, (Z.land _ BUTTON_A =? 0)%Z;
    repeat split; reflexivity.
Qed.

(** X9: an update of a connected controller writes to both motors of a
    side the pulse mapped from that side's inverted axis, always within
    [[MIN_PULSE, MAX_PULSE]] whatever the axis values, and leaves the
    table alone. *)
Theorem update_drives_each_side_alike (c : Controller) (s : Sketch) :
  isConnected c = true ->
  let s' := updateMotorsFromController c s in
  motor1 s' = mapJoystickToPulseBidirectional (Int32.neg (axisY c)) /\
  motor2 s' = motor1 s' /\
  motor3 s' = mapJoystickToPulseBidirectional (Int32.neg (axisRY c)) /\
  motor4 s' = motor3 s' /\
  (MIN_PULSE <= motor1 s' <= MAX_PULSE)%Z /\
  (MIN_PULSE <= motor3 s' <= MAX_PULSE)%Z /\
  controllers s' = controllers s.
Proof.
  intros Hc s'.
  destruct (update_motors c s Hc) as (H1 & H2 & H3 & H4). fold s' in H1, H2, H3, H4.
  rewrite H2, H4, H1, H3.
  repeat split; try apply pulse_bounds.
  apply update_controllers.
Qed.

(** X10: an update of a connected controller moves the arm down when
    [BUTTON_A] is set, up when only [BUTTON_Y] is set, and leaves the arm
    where it was when neither is set. *)
Theorem update_moves_arm_by_buttons (c : Controller) (s : Sketch) :
  isConnected c = true ->
  let mask := to_uint16 (buttons c) in
  let s' := updateMotorsFromController c s in
  (Z.land mask BUTTON_A <> 0%Z -> armServo s' = SERVO_DOWN) /\
  (Z.land mask BUTTON_A = 0%Z -> Z.land mask BUTTON_Y <> 0%Z ->
     armServo s' = SERVO_UP) /\
  (Z.land mask BUTTON_A = 0%Z -> Z.land mask BUTTON_Y = 0%Z ->
     armServo s' = armServo s).
Proof.
  intros Hc mask s'. unfold s', updateMotorsFromController.
  rewrite Hc. cbn [negb]. cbv zeta. fold mask.
  destruct (Z.eqb_spec (Z.land mask BUTTON_Y) 0) as [Hy|Hy];
    destruct (Z.eqb_spec (Z.land mask BUTTON_A) 0) as [Ha|Ha];
    repeat split; intros; try reflexivity; congruence.
Qed.

(** X11: the stick's vertical axis is inverted: of two readings of the
    left axis whose negation lies in [[AXIS_LO, AXIS_HI]], the smaller one
    (stick pushed further up) never gives the left motors the smaller
    pulse. *)
Theorem smaller_axis_reading_never_slows (c1 c2 : Controller) (s : Sketch) :
  isConnected c1 = true -> isConnected c2 = true ->
  product_fits (- axisY c1) -> product_fits (- axisY c2) ->
  (axisY c1 <= axisY c2)%Z ->
  (motor1 (updateMotorsFromController c2 s) <=
   motor1 (updateMotorsFromController c1 s))%Z.
Proof.
  intros Hc1 Hc2 H1 H2 Hle.
  destruct (update_motors c1 s Hc1) as (-> & _).
  destruct (update_motors c2 s Hc2) as (-> & _).
  unfold Int32.neg.
  rewrite !wrap32_fits
    by (unfold product_fits, AXIS_LO, AXIS_HI in H1, H2; lia).
  apply pulse_mono; [exact H2 | exact H1 | lia].
Qed.

(** X12: the diagnostic line closing an update of a connected controller
    is the last serial line and reports the raw axis readings together
    with the very pulses written to the motors. *)
Theorem update_reports_written_pulses (c : Controller) (s : Sketch) :
  isConnected c = true ->
  let s' := updateMotorsFromController c s in
  last (serial s') =
    Some (DriveLine (axisY c) (motor1 s') (axisRY c) (motor3 s')).
Proof.
  intros Hc s'.
  destruct (update_motors c s Hc) as (H1 & _ & H3 & _).
  fold s' in H1, H3. rewrite H1, H3.
  unfold s', updateMotorsFromController. rewrite Hc. cbn [negb]. cbv zeta.
  unfold Serial_print at 1. cbn [serial]. apply last_snoc.
Qed.

End DispatchFacts.

(** ** The main loop *)

Section LoopFacts.
Context `{Bluepad32}.

Lemma loop_scan_controllers n i deref s :
  controllers (loop_scan n i deref s) = controllers s.
Proof.
  revert i s. induction n as [|n IH]; intros i s; simpl; [reflexivity|].
  destruct (controllers s !! i) as [ctl|]; [|reflexivity].
  rewrite IH. destruct (decide (ctl = nullptr)); [reflexivity|].
  destruct (isConnected (deref ctl)); [apply update_controllers|reflexivity].
Qed.

Lemma loop_scan_skip n i deref s :
  (forall k p, i <= k -> k < i + n -> controllers s !! k = Some p ->
     p = nullptr \/ isConnected (deref p) = false) ->
  loop_scan n i deref s = s.
Proof.
  revert i. induction n as [|n IH]; intros i Hskip; simpl; [reflexivity|].
  destruct (controllers s !! i) as [ctl|] eqn:Hi; [|reflexivity].
  assert (ctl = nullptr \/ isConnected (deref ctl) = false) as Hctl
    by (apply (Hskip i); [lia|lia|exact Hi]).
  destruct (decide (ctl = nullptr)) as [_|Hne].
  - apply IH. intros k p Hk1 Hk2. apply Hskip; lia.
  - destruct Hctl as [Hnull|Hoff]; [contradiction|]. rewrite Hoff.
    apply IH. intros k p Hk1 Hk2. apply Hskip; lia.
Qed.

Lemma loop_scan_beyond n i deref s :
  controllers s !! i = None -> loop_scan n i deref s = s.
Proof. intros Hi. destruct n; simpl; [reflexivity|]. rewrite Hi. reflexivity. Qed.

(** A scan of [a + b] slots is a scan of the first [a] followed by a scan
    of the next [b]. *)
Lemma loop_scan_add a b i deref s :
  loop_scan (a + b) i deref s = loop_scan b (i + a) deref (loop_scan a i deref s).
Proof.
  revert i s. induction a as [|a IH]; intros i s.
  - simpl. rewrite Nat.add_0_r. reflexivity.
  - simpl. destruct (controllers s !! i) as [ctl|] eqn:Hi.
    + rewrite IH. replace (S i + a) with (i + S a) by lia. reflexivity.
    + symmetry. apply loop_scan_beyond.
      apply lookup_ge_None. apply lookup_ge_None in Hi. lia.
Qed.

(** X13: a pass of [loop()] changes nothing at all when [BP32.update()]
    reports no news, or when every slot below the capacity is empty or
    holds a controller that is not connected. *)
Theorem idle_pass_changes_nothing
    (updated : bool) (deref : ControllerPtr -> Controller) (s : Sketch) :
  updated = false \/
  (forall k p, k < BP32_MAX_GAMEPADS -> controllers s !! k = Some p ->
     p = nullptr \/ isConnected (deref p) = false) ->
  loop updated deref s = s.
Proof.
  intros [->|Hskip]; [reflexivity|].
  unfold loop. destruct updated; [|reflexivity].
  apply loop_scan_skip. intros k p _ Hk. apply Hskip. lia.
Qed.

(** X14: when several controllers are connected, the one in the highest
    slot decides the motors: after the pass all four motors carry the
    pulses mapped from its two axes. *)
Theorem highest_connected_slot_drives_motors
    (deref : ControllerPtr -> Controller) (s : Sketch)
    (j : nat) (ctl : ControllerPtr) :
  j < BP32_MAX_GAMEPADS ->
  controllers s !! j = Some ctl ->
  ctl <> nullptr ->
  isConnected (deref ctl) = true ->
  (forall k p, j < k -> k < BP32_MAX_GAMEPADS -> controllers s !! k = Some p ->
     p = nullptr \/ isConnected (deref p) = false) ->
  let s' := loop true deref s in
  motor1 s' = mapJoystickToPulseBidirectional (Int32.neg (axisY (deref ctl))) /\
  motor2 s' = motor1 s' /\
  motor3 s' = mapJoystickToPulseBidirectional (Int32.neg (axisRY (deref ctl))) /\
  motor4 s' = motor3 s'.
Proof.
  intros Hj Hat Hctl Hon Hlater s'.
  assert (s' = updateMotorsFromController (deref ctl) (loop_scan j 0 deref s)) as ->.
  { unfold s', loop.
    replace BP32_MAX_GAMEPADS with (j + (1 + (BP32_MAX_GAMEPADS - S j))) by lia.
    rewrite loop_scan_add, loop_scan_add. simpl (0 + j).
    set (s0 := loop_scan j 0 deref s).
    assert (controllers s0 = controllers s) as H0 by apply loop_scan_controllers.
    assert (loop_scan 1 j deref s0 = updateMotorsFromController (deref ctl) s0) as ->.
    { simpl. rewrite H0, Hat. rewrite decide_False by exact Hctl.
      rewrite Hon. reflexivity. }
    apply loop_scan_skip. intros k p Hk1 Hk2.
    rewrite update_controllers, H0. apply Hlater; lia. }
  destruct (update_motors (deref ctl) (loop_scan j 0 deref s) Hon)
    as (H1 & H2 & H3 & H4).
  cbv zeta in H1, H2, H3, H4. rewrite H2, H4, H1, H3.
  repeat split; reflexivity.
Qed.

Lemma loop_controllers updated deref s :
  controllers (loop updated deref s) = controllers s.
Proof.
  unfold loop. destruct updated; [apply loop_scan_controllers|reflexivity].
Qed.

Lemma handle_all_snoc es e s :
  handle_all (es ++ [e]) s = handle e (handle_all es s).
Proof. unfold handle_all. rewrite foldl_app. reflexivity. Qed.

Lemma connect_scan_table n i ctl s1 s2 :
  controllers s1 = controllers s2 ->
  controllers (connect_scan n i ctl s1) = controllers (connect_scan n i ctl s2).
Proof.
  intros Heq. revert i. induction n as [|n IH]; intros i; simpl; [exact Heq|].
  rewrite <- Heq. destruct (controllers s1 !! i) as [p|]; [|exact Heq].
  destruct (decide (p = nullptr)); [|apply IH].
  simpl. rewrite Heq. reflexivity.
Qed.

Lemma disconnect_scan_table n i ctl s1 s2 :
  controllers s1 = controllers s2 ->
  controllers (disconnect_scan n i ctl s1) =
    controllers (disconnect_scan n i ctl s2).
Proof.
  intros Heq. revert i. induction n as [|n IH]; intros i; simpl; [exact Heq|].
  rewrite <- Heq. destruct (controllers s1 !! i) as [p|]; [|exact Heq].
  destruct (decide (p = ctl)); [|apply IH].
  simpl. rewrite Heq. reflexivity.
Qed.

(** The table after an event depends on the table before it only. *)
Lemma handle_table e s1 s2 :
  controllers s1 = controllers s2 ->
  controllers (handle e s1) = controllers (handle e s2).
Proof.
  intros Heq. destruct e as [ctl|ctl]; simpl.
  - apply connect_scan_table, Heq.
  - apply disconnect_scan_table, Heq.
Qed.

(** X15: passes of [loop()] never write the controller table: after any
    interleaving of passes and connection events the table is the one the
    connection events alone produce. *)
Theorem table_follows_callbacks_only (inps : list Input) (s : Sketch) :
  controllers (run inps s) = controllers (handle_all (callbacks inps) s).
Proof.
  induction inps as [|inp inps IH] using rev_ind; [reflexivity|].
  unfold run, callbacks in *. rewrite foldl_app, omap_app. simpl.
  destruct inp as [e|updated deref]; simpl.
  - rewrite handle_all_snoc. apply handle_table, IH.
  - rewrite app_nil_r. rewrite loop_controllers. exact IH.
Qed.

End LoopFacts.

(** ** The whole sketch *)

Section SketchInvariant.
Context `{Bluepad32}.

Lemma safe_boot : safe boot.
Proof.
  unfold safe, boot, setup, power_on, MIN_PULSE, MID_PULSE, MAX_PULSE. simpl.
  rewrite length_replicate.
  repeat split; try lia; try reflexivity; right; reflexivity.
Qed.

Lemma safe_handle e s : safe s -> safe (handle e s).
Proof.
  unfold safe. intros Hs.
  destruct (handle_actuators e s) as (-> & -> & -> & -> & -> & ->).
  exact Hs.
Qed.

Lemma safe_update c s : safe s -> safe (updateMotorsFromController c s).
Proof.
  intros Hs. destruct (isConnected c) eqn:Hc.
  - destruct (update_motors c s Hc) as (H1 & H2 & H3 & H4).
    cbv zeta in H1, H2, H3, H4.
    unfold safe. rewrite H1, H2, H3, H4, update_controllers.
    destruct Hs as (_ & _ & _ & _ & Harm & Hlen).
    repeat split; try apply pulse_bounds; [|exact Hlen].
    unfold updateMotorsFromController. rewrite Hc. cbn [negb]. cbv zeta.
    destruct (Z.land _ BUTTON_Y =? 0)%Z, (Z.land _ BUTTON_A =? 0)%Z; simpl;
      [exact Harm | right; reflexivity | left; reflexivity | right; reflexivity].
  - unfold updateMotorsFromController. rewrite Hc. exact Hs.
Qed.

Lemma safe_loop_scan n i deref s : safe s -> safe (loop_scan n i deref s).
Proof.
  revert i s. induction n as [|n IH]; intros i s Hs; simpl; [exact Hs|].
  destruct (controllers s !! i) as [ctl|]; [|exact Hs].
  apply IH. destruct (decide (ctl = nullptr)); [exact Hs|].
  destruct (isConnected (deref ctl)); [apply safe_update, Hs|exact Hs].
Qed.

(** X16: from the end of [setup()] on, through every interleaving of
    connection events and passes of [loop()], whatever the controllers
    report, the four motors carry pulses within [[MIN_PULSE, MAX_PULSE]],
    the two motors of each side carry the same pulse, the arm is at
    [SERVO_UP] or [SERVO_DOWN], and the table has [BP32_MAX_GAMEPADS]
    entries. *)
Theorem actuators_always_safe (inps : list Input) : safe (run inps boot).
Proof.
  induction inps as [|inp inps IH] using rev_ind; [apply safe_boot|].
  unfold run in *. rewrite foldl_app. simpl.
  destruct inp as [e|updated deref]; simpl.
  - apply safe_handle, IH.
  - unfold loop. destruct updated; [apply safe_loop_scan, IH|exact IH].
Qed.

End SketchInvariant.

(** ** The Bluepad32 test sketch *)

Module TestCodeFacts.
Import String.

Section Facts.
Context `{Bluepad32}.

Lemma connect_scan_same_table n i ctl (t : TestCode.Sketch) (s : Sketch) :
  TestCode.controllers t = controllers s ->
  TestCode.controllers (TestCode.connect_scan n i ctl t) =
    controllers (connect_scan n i ctl s).
Proof.
  intros Heq. revert i. induction n as [|n IH]; intros i; simpl; [exact Heq|].
  rewrite Heq. destruct (controllers s !! i) as [p|]; [|exact Heq].
  destruct (decide (p = nullptr)); [|apply IH].
  simpl. rewrite Heq. reflexivity.
Qed.

Lemma disconnect_scan_same_table n i ctl (t : TestCode.Sketch) (s : Sketch) :
  TestCode.controllers t = controllers s ->
  TestCode.controllers (TestCode.disconnect_scan n i ctl t) =
    controllers (disconnect_scan n i ctl s).
Proof.
  intros Heq. revert i. induction n as [|n IH]; intros i; simpl; [exact Heq|].
  rewrite Heq. destruct (controllers s !! i) as [p|]; [|exact Heq].
  destruct (decide (p = ctl)); [|apply IH].
  simpl. rewrite Heq. reflexivity.
Qed.

(** X17: the connection handlers of the test sketch and those of the
    motor sketch keep the same table: started on equal tables and fed the
    same events, the two sketches end with equal tables. *)
Theorem both_sketches_keep_the_same_table
    (es : list Event) (t : TestCode.Sketch) (s : Sketch) :
  TestCode.controllers t = controllers s ->
  TestCode.controllers (TestCode.handle_all es t) =
    controllers (handle_all es s).
Proof.
  revert t s. induction es as [|e es IH]; intros t s Heq; [exact Heq|].
  unfold TestCode.handle_all, handle_all. simpl. apply IH.
  destruct e as [ctl|ctl]; simpl.
  - apply connect_scan_same_table, Heq.
  - apply disconnect_scan_same_table, Heq.
Qed.

Lemma process_scan_prints n i deref (t : TestCode.Sketch) :
  TestCode.process_scan n i deref t =
    {| TestCode.controllers := TestCode.controllers t;
       TestCode.serial :=
         TestCode.serial t ++
         ((fun p => TestCode.dump_line (deref p)) <$>
            filter (fun p => TestCode.ready deref p = true)
              (take n (drop i (TestCode.controllers t)))) |}.
Proof.
  revert i t. induction n as [|n IH]; intros i t.
  - simpl. rewrite app_nil_r. destruct t; reflexivity.
  - simpl. destruct (TestCode.controllers t !! i) as [ctl|] eqn:Hi.
    + rewrite (drop_S _ _ _ Hi). simpl. rewrite IH.
      destruct (TestCode.ready deref ctl) eqn:Hr.
      * rewrite filter_cons_True by exact Hr. simpl.
        rewrite <- app_assoc. reflexivity.
      * rewrite filter_cons_False by (rewrite Hr; discriminate). reflexivity.
    + apply lookup_ge_None in Hi. rewrite drop_ge by exact Hi.
      rewrite take_nil. simpl. rewrite app_nil_r. destruct t; reflexivity.
Qed.

(** X18: [processControllers] prints one dump line for every slot below
    the capacity whose controller is non-null, connected and has data, in
    ascending slot order, prints nothing else and leaves the table as it
    was. *)
Theorem processControllers_prints_ready_slots
    (deref : ControllerPtr -> TestCode.Gamepad) (t : TestCode.Sketch) :
  TestCode.controllers (TestCode.processControllers deref t) =
    TestCode.controllers t /\
  TestCode.serial (TestCode.processControllers deref t) =
    TestCode.serial t ++
    ((fun p => TestCode.dump_line (deref p)) <$>
       filter (fun p => TestCode.ready deref p = true)
         (take BP32_MAX_GAMEPADS (TestCode.controllers t))).
Proof.
  unfold TestCode.processControllers. rewrite process_scan_prints.
  split; reflexivity.
Qed.

End Facts.

(** X19: the address line of [setup()] never fits its 20-character
    buffer: whatever the six address bytes, the line printed has 19
    characters and stops after the first hexadecimal digit of the fourth
    byte, so the fourth byte's second digit and the last two bytes never
    appear. *)
Theorem bd_address_line_is_cut
    (firmware : list ascii) (a0 a1 a2 a3 a4 a5 : Byte.byte) (t : TestCode.Sketch) :
  let line :=
    list_ascii_of_string "BD Addr: " ++
    TestCode.fmt_02X a0 ++ [":"%char] ++
    TestCode.fmt_02X a1 ++ [":"%char] ++
    TestCode.fmt_02X a2 ++ [":"%char] ++
    [TestCode.hex_digit (Byte.to_N a3 / 16)] in
  TestCode.serial (TestCode.setup firmware [a0; a1; a2; a3; a4; a5] t) =
    TestCode.serial t ++
    [TestCode.Text
       (list_ascii_of_string "Starting Bluepad32 test for Xbox controller");
     TestCode.Text (list_ascii_of_string "Firmware version: " ++ firmware);
     TestCode.Text line] /\
  Datatypes.length line = 19 /\
  Datatypes.length (TestCode.bd_addr_text [a0; a1; a2; a3; a4; a5]) = 26.
Proof.
  intros line. split; [|split; reflexivity].
  unfold TestCode.setup. cbv zeta. unfold TestCode.Serial_print. simpl.
  rewrite <- !app_assoc. reflexivity.
Qed.

End TestCodeFacts.

(** ** Evaluation of the further properties on the four-slot table *)

Lemma connect_takes_lowest_empty_slot_witness :
  let s := @handle_all bluepad32_esp32
             [Connect 1%N; Connect 2%N; Connect 3%N; Disconnect 2%N]
             (@boot bluepad32_esp32) in
  1 < @BP32_MAX_GAMEPADS bluepad32_esp32 /\
  controllers s !! 1 = Some nullptr /\
  (forall k, k < 1 -> controllers s !! k <> Some nullptr) /\
  controllers (@onConnectedController bluepad32_esp32 7%N s) = [1; 7; 3; 0]%N.
Proof.
  intros s.
  assert (forall k, k < 1 -> controllers s !! k <> Some nullptr) as Hmin.
  { intros k Hk. destruct k as [|k]; [discriminate|lia]. }
  split; [simpl; lia|]. split; [reflexivity|]. split; [exact Hmin|].
  destruct (@connect_takes_lowest_empty_slot bluepad32_esp32 7%N s 1)
    as [Htable _]; [simpl; lia | reflexivity | exact Hmin |].
  rewrite Htable. reflexivity.
Defined.

Lemma stale_disconnect_is_noop_witness :
  let s := @handle_all bluepad32_esp32 [Connect 1%N; Connect 2%N]
             (@boot bluepad32_esp32) in
  (9%N ∉ controllers s) /\
  @onDisconnectedController bluepad32_esp32 9%N s = s.
Proof.
  intros s.
  assert (9%N ∉ controllers s) as Hout.
  { apply (bool_decide_unpack _). vm_compute. reflexivity. }
  split; [exact Hout|].
  apply (@stale_disconnect_is_noop bluepad32_esp32 9%N s Hout).
Defined.

Lemma connect_on_full_table_is_noop_witness :
  let s := @handle_all bluepad32_esp32
             [Connect 1%N; Connect 2%N; Connect 1%N; Connect 1%N]
             (@boot bluepad32_esp32) in
  Forall (fun p => p <> nullptr) (controllers s) /\
  @onConnectedController bluepad32_esp32 5%N s = s.
Proof.
  intros s.
  assert (Forall (fun p => p <> nullptr) (controllers s)) as Hfull.
  { apply (bool_decide_unpack _). vm_compute. reflexivity. }
  split; [exact Hfull|].
  apply (@connect_on_full_table_is_noop bluepad32_esp32 5%N s Hfull).
Defined.

Lemma connect_disconnect_restores_table_witness :
  let s := @handle_all bluepad32_esp32 [Connect 1%N; Connect 2%N]
             (@boot bluepad32_esp32) in
  5%N <> nullptr /\ (5%N ∉ controllers s) /\
  controllers
    (@onDisconnectedController bluepad32_esp32 5%N
       (@onConnectedController bluepad32_esp32 5%N s)) = controllers s.
Proof.
  intros s.
  assert (5%N ∉ controllers s) as Hout.
  { apply (bool_decide_unpack _). vm_compute. reflexivity. }
  split; [discriminate|]. split; [exact Hout|].
  apply (@connect_disconnect_restores_table bluepad32_esp32 5%N s);
    [discriminate | exact Hout].
Defined.

Lemma connect_with_room_registers_witness :
  let s := @handle_all bluepad32_esp32 [Connect 1%N; Connect 2%N]
             (@boot bluepad32_esp32) in
  5%N <> nullptr /\
  length (controllers s) = @BP32_MAX_GAMEPADS bluepad32_esp32 /\
  occupied (controllers s) < @BP32_MAX_GAMEPADS bluepad32_esp32 /\
  occupied (controllers (@onConnectedController bluepad32_esp32 5%N s)) =
    S (occupied (controllers s)).
Proof.
  intros s.
  assert (occupied (controllers s) < @BP32_MAX_GAMEPADS bluepad32_esp32) as Hroom.
  { vm_compute. lia. }
  split; [discriminate|]. split; [reflexivity|]. split; [exact Hroom|].
  apply (@connect_with_room_registers bluepad32_esp32 5%N s);
    [discriminate | reflexivity | exact Hroom].
Defined.

Lemma disconnect_frees_one_slot_witness :
  let s := @handle_all bluepad32_esp32 [Connect 1%N; Connect 1%N; Connect 2%N]
             (@boot bluepad32_esp32) in
  1%N <> nullptr /\
  length (controllers s) = @BP32_MAX_GAMEPADS bluepad32_esp32 /\
  (1%N ∈ controllers s) /\
  S (occupied (controllers (@onDisconnectedController bluepad32_esp32 1%N s))) =
    occupied (controllers s).
Proof.
  intros s.
  assert (1%N ∈ controllers s) as Hin.
  { apply (bool_decide_unpack _). vm_compute. reflexivity. }
  split; [discriminate|]. split; [reflexivity|]. split; [exact Hin|].
  apply (@disconnect_frees_one_slot bluepad32_esp32 1%N s);
    [discriminate | reflexivity | exact Hin].
Defined.

Lemma other_devices_keep_their_slot_witness :
  let s := @handle_all bluepad32_esp32 [Connect 1%N; Connect 2%N]
             (@boot bluepad32_esp32) in
  controllers s !! 1 = Some 2%N /\ 2%N <> nullptr /\
  Disconnect 1%N <> Disconnect 2%N /\
  controllers (@handle bluepad32_esp32 (Disconnect 1%N) s) !! 1 = Some 2%N.
Proof.
  intros s.
  split; [reflexivity|]. split; [discriminate|]. split; [discriminate|].
  apply (@other_devices_keep_their_slot bluepad32_esp32 (Disconnect 1%N) s 1 2%N);
    [reflexivity | discriminate | discriminate].
Defined.

Lemma update_drives_each_side_alike_witness :
  let c := {| isConnected := true; axisY := 5000; axisRY := -200; buttons := 0 |} in
  let s := @boot bluepad32_esp32 in
  isConnected c = true /\
  motor2 (@updateMotorsFromController bluepad32_esp32 c s) =
    motor1 (@updateMotorsFromController bluepad32_esp32 c s).
Proof.
  intros c s. split; [reflexivity|].
  apply (@update_drives_each_side_alike bluepad32_esp32 c s). reflexivity.
Defined.

Lemma update_moves_arm_by_buttons_witness :
  let c := {| isConnected := true; axisY := 0; axisRY := 0; buttons := 8 |} in
  let s := @boot bluepad32_esp32 in
  isConnected c = true /\
  (Z.land (to_uint16 (buttons c)) (@BUTTON_A bluepad32_esp32) = 0%Z ->
   Z.land (to_uint16 (buttons c)) (@BUTTON_Y bluepad32_esp32) <> 0%Z ->
   armServo (@updateMotorsFromController bluepad32_esp32 c s) = SERVO_UP).
Proof.
  intros c s. split; [reflexivity|].
  apply (@update_moves_arm_by_buttons bluepad32_esp32 c s). reflexivity.
Defined.

Lemma smaller_axis_reading_never_slows_witness :
  let c1 := {| isConnected := true; axisY := -512; axisRY := 0; buttons := 0 |} in
  let c2 := {| isConnected := true; axisY := 100; axisRY := 0; buttons := 0 |} in
  let s := @boot bluepad32_esp32 in
  isConnected c1 = true /\ isConnected c2 = true /\
  product_fits (- axisY c1) /\ product_fits (- axisY c2) /\
  (axisY c1 <= axisY c2)%Z /\
  (motor1 (@updateMotorsFromController bluepad32_esp32 c2 s) <=
   motor1 (@updateMotorsFromController bluepad32_esp32 c1 s))%Z.
Proof.
  intros c1 c2 s.
  assert (product_fits (- axisY c1)) as H1
    by (unfold product_fits, AXIS_LO, AXIS_HI; simpl; lia).
  assert (product_fits (- axisY c2)) as H2
    by (unfold product_fits, AXIS_LO, AXIS_HI; simpl; lia).
  split; [reflexivity|]. split; [reflexivity|].
  split; [exact H1|]. split; [exact H2|]. split; [simpl; lia|].
  apply (@smaller_axis_reading_never_slows bluepad32_esp32 c1 c2 s);
    [reflexivity | reflexivity | exact H1 | exact H2 | simpl; lia].
Defined.

Lemma update_reports_written_pulses_witness :
  let c := {| isConnected := true; axisY := -300; axisRY := 20; buttons := 1 |} in
  let s := @boot bluepad32_esp32 in
  isConnected c = true /\
  last (serial (@updateMotorsFromController bluepad32_esp32 c s)) =
    Some (DriveLine (-300) 1797 20 1492).
Proof.
  intros c s. split; [reflexivity|].
  rewrite (@update_reports_written_pulses bluepad32_esp32 c s eq_refl).
  reflexivity.
Defined.

Lemma idle_pass_changes_nothing_witness :
  let deref := fun _ : ControllerPtr =>
    {| isConnected := false; axisY := 512; axisRY := 512; buttons := 9 |} in
  let s := @handle_all bluepad32_esp32 [Connect 1%N; Connect 2%N]
             (@boot bluepad32_esp32) in
  (true = false \/
   (forall k p, k < @BP32_MAX_GAMEPADS bluepad32_esp32 ->
      controllers s !! k = Some p ->
      p = nullptr \/ isConnected (deref p) = false)) /\
  @loop bluepad32_esp32 true deref s = s.
Proof.
  intros deref s.
  assert (true = false \/
          (forall k p, k < @BP32_MAX_GAMEPADS bluepad32_esp32 ->
             controllers s !! k = Some p ->
             p = nullptr \/ isConnected (deref p) = false)) as Hidle.
  { right. intros k p _ _. right. reflexivity. }
  split; [exact Hidle|].
  apply (@idle_pass_changes_nothing bluepad32_esp32 true deref s Hidle).
Defined.

Lemma highest_connected_slot_drives_motors_witness :
  let deref := fun p : ControllerPtr =>
    {| isConnected := true;
       axisY := if N.eqb p 1 then -512 else 100;
       axisRY := 0; buttons := 0 |} in
  let s := @handle_all bluepad32_esp32 [Connect 1%N; Connect 2%N]
             (@boot bluepad32_esp32) in
  1 < @BP32_MAX_GAMEPADS bluepad32_esp32 /\
  controllers s !! 1 = Some 2%N /\ 2%N <> nullptr /\
  isConnected (deref 2%N) = true /\
  (forall k p, 1 < k -> k < @BP32_MAX_GAMEPADS bluepad32_esp32 ->
     controllers s !! k = Some p ->
     p = nullptr \/ isConnected (deref p) = false) /\
  motor1 (@loop bluepad32_esp32 true deref s) =
    mapJoystickToPulseBidirectional (Int32.neg 100).
Proof.
  intros deref s.
  assert (forall k p, 1 < k -> k < @BP32_MAX_GAMEPADS bluepad32_esp32 ->
            controllers s !! k = Some p ->
            p = nullptr \/ isConnected (deref p) = false) as Hlater.
  { intros k p Hk1 Hk2 Hp. left.
    destruct k as [|[|[|[|k]]]]; simpl in Hk2; try lia;
      vm_compute in Hp; injection Hp as <-; reflexivity. }
  split; [simpl; lia|]. split; [reflexivity|]. split; [discriminate|].
  split; [reflexivity|]. split; [exact Hlater|].
  apply (@highest_connected_slot_drives_motors bluepad32_esp32 deref s 1 2%N);
    [simpl; lia | reflexivity | discriminate | reflexivity | exact Hlater].
Defined.

Lemma both_sketches_keep_the_same_table_witness :
  let es := [Connect 1%N; Connect 2%N; Disconnect 1%N; Connect 3%N] in
  let t := {| TestCode.controllers := replicate 4 nullptr;
              TestCode.serial := [] |} in
  let s := @boot bluepad32_esp32 in
  TestCode.controllers t = controllers s /\
  TestCode.controllers (@TestCode.handle_all bluepad32_esp32 es t) =
    controllers (@handle_all bluepad32_esp32 es s).
Proof.
  intros es t s. split; [reflexivity|].
  apply (@TestCodeFacts.both_sketches_keep_the_same_table bluepad32_esp32 es t s).
  reflexivity.
Defined.
